(** * twpca: time-warped PCA ([twpca/model.py], class [TWPCA])

    A shallow embedding of the estimator of [twpca/model.py] and the
    properties of its objective, masks, training history and predictor.

    Modelling conventions.
    - A numpy entry is a [float]: a finite number (a real number), NaN, or
      one of the two infinities.  [X.astype(np.float32)] rounds a finite
      entry to the nearest float32, ties to even, and to an infinity beyond
      the finite range.
    - The reconstruction cost and the objective are float32 values as far as
      NaN and the infinities go: a result beyond the finite range is an
      infinity, zero times infinity and zero divided by zero are NaN.  The
      rounding of a result within the range is not modelled; the factors,
      the prediction and the regularizers are real numbers.
    - A TensorFlow tensor is a function of the values of the graph's
      variables ([tensor A := store -> A]); [sess.run] applies it to the
      variables the session holds.
    - The modules [warp], [utils] and [regularizers], numpy's [lstsq] and the
      optimizer are collaborators of [model.py]; they are the fields of the
      class [Backend] and the arguments of the constructor and of [fit]. *)

From Stdlib Require Import String.
From Stdlib Require Import ZArith Reals Lra Lia Bool Arith PeanoNat List.
Import ListNotations.
Local Open Scope string_scope.
Local Open Scope list_scope.
Local Open Scope R_scope.

(** ** Numbers and arrays *)

Inductive float : Type :=
| Fin (r : R)
| NaN
| PosInf
| NegInf.

Definition matrix : Type := list (list R).
Definition tensor3 : Type := list (list (list R)).

(** A 3D numpy array: its [shape] and its entries, trial by trial, timestep
    by timestep. *)
Record ndarray (A : Type) : Type := mk_ndarray {
  shape : nat * nat * nat;
  data : list (list (list A))
}.
Arguments mk_ndarray {A} _ _.
Arguments shape {A} _.
Arguments data {A} _.

Definition dim0 {A} (X : ndarray A) : nat := fst (fst (shape X)).
Definition dim1 {A} (X : ndarray A) : nat := snd (fst (shape X)).
Definition dim2 {A} (X : ndarray A) : nat := snd (shape X).

Definition has_lengthb {A} (n : nat) (l : list A) : bool := Nat.eqb (length l) n.

(** The entries agree with the shape. *)
Definition wf_ndarray {A} (X : ndarray A) : bool :=
  has_lengthb (dim0 X) (data X)
  && forallb (fun trial =>
       has_lengthb (dim1 X) trial
       && forallb (has_lengthb (dim2 X)) trial) (data X).

Definition map3 {A B} (f : A -> B) (t : list (list (list A))) : list (list (list B)) :=
  map (map (map f)) t.

Fixpoint zipWith {A B C} (f : A -> B -> C) (l1 : list A) (l2 : list B) : list C :=
  match l1, l2 with
  | a :: l1', b :: l2' => f a b :: zipWith f l1' l2'
  | _, _ => []
  end.

Definition zipWith3d {A B C} (f : A -> B -> C)
    (s : list (list (list A))) (t : list (list (list B))) : list (list (list C)) :=
  zipWith (zipWith (zipWith f)) s t.

(** Entry [(i, j, n)] of a nested list. *)
Definition get3 {A} (t : list (list (list A))) (i j n : nat) : option A :=
  match nth_error t i with
  | Some ti => match nth_error ti j with
               | Some tij => nth_error tij n
               | None => None
               end
  | None => None
  end.

(** *** numpy *)

(** [np.isfinite] *)
Definition isfinite (x : float) : bool :=
  match x with Fin _ => true | _ => false end.

(** The largest finite float32, [(2 - 2^-23) * 2^127]. *)
Definition FLT_MAX : R := (2 - / 2 ^ 23) * 2 ^ 127.

(** [np.nan_to_num]: NaN becomes zero, the infinities the largest and the
    smallest finite number. *)
Definition nan_to_num (x : float) : R :=
  match x with
  | Fin r => r
  | NaN => 0
  | PosInf => FLT_MAX
  | NegInf => - FLT_MAX
  end.

(** *** float32 *)

(** The nearest integer, ties to the even one. *)
Definition round_half_even (q : R) : Z :=
  let f := Int_part q in
  let d := q - IZR f in
  if Rlt_dec d (/ 2) then f
  else if Rlt_dec (/ 2) d then (f + 1)%Z
  else if Z.even f then f else (f + 1)%Z.

(** The exponent of the binade of [r] in float32: [floor (log2 |r|)], and
    -126 for the subnormal numbers. *)
Definition float32_exponent (r : R) : Z :=
  Z.max (Int_part (ln (Rabs r) / ln 2)) (-126).

(** A real number rounded to float32 (24 bits of precision, round to nearest,
    ties to even): the nearest multiple of the unit in the last place of its
    binade, an infinity when that is beyond the largest finite float32. *)
Definition round_float32 (r : R) : float :=
  let ulp := powerRZ 2 (float32_exponent r - 23) in
  let v := IZR (round_half_even (r / ulp)) * ulp in
  if Rlt_dec FLT_MAX (Rabs v)
  then (if Rlt_dec 0 r then PosInf else NegInf)
  else Fin v.

(** [x.astype(np.float32)] on an entry. *)
Definition astype_float32 (x : float) : float :=
  match x with
  | Fin r => round_float32 r
  | NaN => NaN
  | PosInf => PosInf
  | NegInf => NegInf
  end.

(** [X.astype(np.float32)] *)
Definition np_astype_float32 (X : ndarray float) : ndarray float :=
  {| shape := shape X; data := map3 astype_float32 (data X) |}.

(** A float32 holds [r] exactly: [r] is zero, or a multiple of the unit in
    the last place of its binade (of [2^-149] when it is subnormal), within
    the finite range. *)
Definition float32_representable (r : R) : Prop :=
  Rabs r <= FLT_MAX
  /\ (r = 0
      \/ (exists n k : Z,
             (-126 <= k)%Z
             /\ powerRZ 2 k <= Rabs r < powerRZ 2 (k + 1)
             /\ r = IZR n * powerRZ 2 (k - 23))
      \/ (exists n : Z,
             0 < Rabs r < powerRZ 2 (-126)
             /\ r = IZR n * powerRZ 2 (-149))).

(** The result of a float32 operation whose exact value is [r]: an infinity
    when [r] is beyond the finite range.  Rounding within the range is not
    modelled. *)
Definition float32_of_exact (r : R) : float :=
  if Rlt_dec FLT_MAX r then PosInf
  else if Rlt_dec r (- FLT_MAX) then NegInf
  else Fin r.

(** float32 addition, subtraction and multiplication: NaN when an operand is
    NaN, for the sum of opposite infinities and for zero times infinity. *)
Definition fadd (a b : float) : float :=
  match a, b with
  | NaN, _ => NaN
  | _, NaN => NaN
  | Fin x, Fin y => float32_of_exact (x + y)
  | PosInf, NegInf => NaN
  | NegInf, PosInf => NaN
  | PosInf, _ => PosInf
  | _, PosInf => PosInf
  | NegInf, _ => NegInf
  | _, NegInf => NegInf
  end.

Definition fneg (a : float) : float :=
  match a with
  | Fin x => Fin (- x)
  | NaN => NaN
  | PosInf => NegInf
  | NegInf => PosInf
  end.

Definition fsub (a b : float) : float := fadd a (fneg b).

(** An infinity times the finite [x]. *)
Definition infinity_times (positive : bool) (x : R) : float :=
  if Req_dec_T x 0 then NaN
  else if Rlt_dec 0 x then (if positive then PosInf else NegInf)
  else (if positive then NegInf else PosInf).

Definition fmul (a b : float) : float :=
  match a, b with
  | NaN, _ => NaN
  | _, NaN => NaN
  | Fin x, Fin y => float32_of_exact (x * y)
  | Fin x, PosInf => infinity_times true x
  | PosInf, Fin x => infinity_times true x
  | Fin x, NegInf => infinity_times false x
  | NegInf, Fin x => infinity_times false x
  | PosInf, PosInf => PosInf
  | NegInf, NegInf => PosInf
  | PosInf, NegInf => NegInf
  | NegInf, PosInf => NegInf
  end.

(** A float32 divided by a count: by zero, NaN for zero and an infinity
    otherwise. *)
Definition fdiv_count (a : float) (n : nat) : float :=
  match a with
  | Fin x =>
      match n with
      | O => if Req_dec_T x 0 then NaN
             else if Rlt_dec 0 x then PosInf else NegInf
      | S _ => Fin (x / INR n)
      end
  | NaN => NaN
  | PosInf => PosInf
  | NegInf => NegInf
  end.

(** [tf.reduce_sum] of a float32 tensor. *)
Definition fsum_list (l : list float) : float := fold_right fadd (Fin 0) l.
Definition freduce_sum (t : list (list (list float))) : float :=
  fsum_list (map (fun ti => fsum_list (map fsum_list ti)) t).

(** A boolean array read as float32 ([tf.constant(np_mask, dtype=tf.float32)]). *)
Definition bool_to_float32 (b : bool) : R := if b then 1 else 0.

(** [np.sum] of a boolean array. *)
Definition count_true (l : list bool) : nat := length (filter (fun b : bool => b) l).
Definition np_sum_bool (t : list (list (list bool))) : nat :=
  count_true (concat (concat t)).

(** [np.all(a, axis=-1)] on one row. *)
Definition np_all (row : list bool) : bool := forallb (fun b : bool => b) row.

(** [np.argmax] along an axis of booleans: the index of the first maximal
    entry, a [ValueError] on an empty axis. *)
Fixpoint argmax_from (best_i : nat) (best : bool) (i : nat) (l : list bool) : nat :=
  match l with
  | [] => best_i
  | x :: l' =>
      if negb best && x then argmax_from i x (S i) l'
      else argmax_from best_i best (S i) l'
  end.

Definition argmax (l : list bool) : option nat :=
  match l with
  | [] => None
  | x :: l' => Some (argmax_from 0%nat x 1%nat l')
  end.

(** [tf.reduce_sum] *)
Definition sum_list (l : list R) : R := fold_right Rplus 0 l.
Definition reduce_sum (t : tensor3) : R :=
  sum_list (map (fun ti => sum_list (map sum_list ti)) t).

(** [tf.nn.softplus]: [log(exp(x) + 1)]. *)
Definition softplus (x : R) : R := ln (exp x + 1).

Definition map_matrix (f : R -> R) (m : matrix) : matrix := map (map f) m.

(** ** Python values and exceptions *)

Inductive exn : Type :=
| ValueError (msg : string)
| AttributeError (msg : string)
| KeyError (key : string)
| UnboundLocalError (name : string).

Inductive result (A : Type) : Type :=
| Ok (a : A)
| Raise (e : exn).
Arguments Ok {A} _.
Arguments Raise {A} _.

(** An argument that is a number or an iterable of numbers ([np.iterable]). *)
Inductive number_or_iterable (A : Type) : Type :=
| Scalar (a : A)
| Iterable (l : list A).
Arguments Scalar {A} _.
Arguments Iterable {A} _.

(** The keys of the dictionaries [_regularizers], [_raw_params] and [_params]. *)
Inductive param_key : Type := k_trial | k_time | k_neuron | k_warp.

Definition param_key_eqb (a b : param_key) : bool :=
  match a, b with
  | k_trial, k_trial | k_time, k_time | k_neuron, k_neuron | k_warp, k_warp => true
  | _, _ => false
  end.

(** A Python dictionary, in insertion order. *)
Definition dict (V : Type) : Type := list (param_key * V).

Fixpoint dict_get {V} (d : dict V) (k : param_key) : option V :=
  match d with
  | [] => None
  | (k', v) :: d' => if param_key_eqb k' k then Some v else dict_get d' k
  end.

(** [d[k] = v]: an existing key keeps its place. *)
Fixpoint dict_set {V} (d : dict V) (k : param_key) (v : V) : dict V :=
  match d with
  | [] => [(k, v)]
  | (k', v') :: d' =>
      if param_key_eqb k' k then (k', v) :: d' else (k', v') :: dict_set d' k v
  end.

(** ** Collaborators *)

(** The code of [warp], [utils] and numpy is not part of [model.py].  Its
    functions are fields here, so a call to one of them always returns a
    value: whether [warp.generate_warps] or [utils.compute_lowrank_factors]
    raise on some data is outside the model, and the properties below say
    what [fit] leaves when it returns, not that it returns. *)
Class Backend : Type := {
  (** the values of the trainable variables [warp.generate_warps] creates *)
  WarpVars : Type;
  (** the internal state of the optimizer (its slots) *)
  OptSlots : Type;
  (** [warp.generate_warps(n_trials, n_timesteps, shared_length, warptype,
      warpinit, origin_idx, data, last_idx)]: the warp tensor and the inverse
      warp tensor, as functions of the warp variables, and the variables'
      initial values *)
  generate_warps :
    nat -> nat -> nat -> string -> string -> option nat ->
    ndarray float -> list nat ->
    (WarpVars -> matrix) * (WarpVars -> matrix) * WarpVars;
  (** what [warp.warp] does to one trial: the trial's matrix (time by
      component) mapped through the trial's row of the warp tensor *)
  warp_trial : list (list R) -> list R -> list (list R);
  (** [utils.compute_lowrank_factors(data, n_components, fit_trial_factors,
      nonneg, last_idx)]: the initial trial, time and neuron factors *)
  compute_lowrank_factors :
    ndarray float -> nat -> bool -> bool -> list nat -> matrix * matrix * matrix;
  (** [np.linalg.lstsq(a, b)[0]] *)
  lstsq : matrix -> matrix -> matrix
}.

Section Model.
Context `{B : Backend}.

(** *** The TensorFlow graph *)

(** The variables [fit] creates: ["time_factors"], ["neuron_factors"],
    ["trial_factors"] (only when trial factors are fitted) and those of the
    warps. *)
Record store : Type := mk_store {
  time_factors : matrix;
  neuron_factors : matrix;
  trial_factors : option matrix;
  warp_variables : WarpVars
}.

Definition tensor (A : Type) : Type := store -> A.

Inductive variable : Type := time_var | neuron_var | trial_var.

(** The value of a [tf.Variable]. *)
Definition read (v : variable) : tensor matrix :=
  fun s =>
    match v with
    | time_var => time_factors s
    | neuron_var => neuron_factors s
    | trial_var => match trial_factors s with Some t => t | None => [] end
    end.

Inductive trainable : Type :=
| factor_variable (v : variable)
| warp_vars.

Record Session : Type := mk_Session {
  vars : store;
  slots : OptSlots
}.

(** [sess.run(t)] *)
Definition sess_run {A} (sess : Session) (t : tensor A) : A := t (vars sess).

(** A [tf.train.Optimizer] class: the initial value of its slots, and the
    step its [minimize(objective, var_list)] operation takes when it is run
    with a learning rate. *)
Record Optimizer : Type := mk_Optimizer {
  slots_init : OptSlots;
  minimize : tensor float -> list trainable -> R -> Session -> Session
}.

(** [tf.tile(tf.expand_dims(m, [0]), [n, 1, 1])] *)
Definition tile (m : matrix) (n : nat) : tensor3 := repeat m n.

(** Modelled from the spec: [warp.warp(data, warps)] of the module [warp],
    which is not part of [model.py]: every trial of [data] is mapped through
    that trial's own warp. *)
Definition warp (data : tensor3) (warps : matrix) : tensor3 :=
  zipWith warp_trial data warps.

Definition dot (u v : list R) : R := sum_list (zipWith Rmult u v).

(** [tf.einsum('ijk,nk->ijn', W, N)] *)
Definition einsum_ijk_nk (W : tensor3) (N : matrix) : tensor3 :=
  map (fun Wi => map (fun wij => map (fun Nn => dot wij Nn) N) Wi) W.

(** [tf.einsum('ik,ijk,nk->ijn', T, W, N)] *)
Definition einsum_ik_ijk_nk (T : matrix) (W : tensor3) (N : matrix) : tensor3 :=
  zipWith (fun Ti Wi =>
    map (fun wij => map (fun Nn => dot (zipWith Rmult Ti wij) Nn) N) Wi) T W.

(** ** The estimator *)

Record TWPCA : Type := mk_TWPCA {
  n_components : nat;
  shared_length : option nat;
  fit_trial_factors : bool;
  warptype : string;
  warpinit : string;
  origin_idx : option nat;
  nonneg : bool;
  _regularizers : param_key -> matrix -> R;
  _raw_params : dict variable;
  _params : dict (tensor matrix);
  _sess : option Session;
  (* the attributes below exist once [fit] has set them *)
  X : option tensor3;
  _num_datapoints : option nat;
  _mask : option tensor3;
  last_idx : option (list nat);
  _inv_warp : option (tensor matrix);
  _warped_time_factors : option (tensor (ndarray R));
  X_pred : option (tensor tensor3);
  recon_cost : option (tensor float);
  objective : option (tensor float);
  obj_history : option (list float);
  _opt : option Optimizer;
  _train_op : option (R -> Session -> Session)
}.

(** *** Attribute assignment *)

(** [self.shared_length = v] *)
Definition set_shared_length (m : TWPCA) (v : option nat) : TWPCA :=
  {| n_components := n_components m;
     shared_length := v;
     fit_trial_factors := fit_trial_factors m;
     warptype := warptype m;
     warpinit := warpinit m;
     origin_idx := origin_idx m;
     nonneg := nonneg m;
     _regularizers := _regularizers m;
     _raw_params := _raw_params m;
     _params := _params m;
     _sess := _sess m;
     X := X m;
     _num_datapoints := _num_datapoints m;
     _mask := _mask m;
     last_idx := last_idx m;
     _inv_warp := _inv_warp m;
     _warped_time_factors := _warped_time_factors m;
     X_pred := X_pred m;
     recon_cost := recon_cost m;
     objective := objective m;
     obj_history := obj_history m;
     _opt := _opt m;
     _train_op := _train_op m |}.

(** [self.X = x; self._num_datapoints = n; self._mask = k] *)
Definition set_masked_data (m : TWPCA) (x : tensor3) (n : nat) (k : tensor3) : TWPCA :=
  {| n_components := n_components m;
     shared_length := shared_length m;
     fit_trial_factors := fit_trial_factors m;
     warptype := warptype m;
     warpinit := warpinit m;
     origin_idx := origin_idx m;
     nonneg := nonneg m;
     _regularizers := _regularizers m;
     _raw_params := _raw_params m;
     _params := _params m;
     _sess := _sess m;
     X := Some x;
     _num_datapoints := Some n;
     _mask := Some k;
     last_idx := last_idx m;
     _inv_warp := _inv_warp m;
     _warped_time_factors := _warped_time_factors m;
     X_pred := X_pred m;
     recon_cost := recon_cost m;
     objective := objective m;
     obj_history := obj_history m;
     _opt := _opt m;
     _train_op := _train_op m |}.

(** [self.obj_history = h], with the session in the state [sess] *)
Definition set_training (m : TWPCA) (h : list float) (sess : option Session) : TWPCA :=
  {| n_components := n_components m;
     shared_length := shared_length m;
     fit_trial_factors := fit_trial_factors m;
     warptype := warptype m;
     warpinit := warpinit m;
     origin_idx := origin_idx m;
     nonneg := nonneg m;
     _regularizers := _regularizers m;
     _raw_params := _raw_params m;
     _params := _params m;
     _sess := sess;
     X := X m;
     _num_datapoints := _num_datapoints m;
     _mask := _mask m;
     last_idx := last_idx m;
     _inv_warp := _inv_warp m;
     _warped_time_factors := _warped_time_factors m;
     X_pred := X_pred m;
     recon_cost := recon_cost m;
     objective := objective m;
     obj_history := Some h;
     _opt := _opt m;
     _train_op := _train_op m |}.

(** *** Construction *)

(** [TWPCA.__init__] *)
Definition __init__ (n_components' : nat) (shared_length' : option nat)
    (trial_regularizer time_regularizer neuron_regularizer : matrix -> R)
    (nonneg' fit_trial_factors' : bool) (warptype' warpinit' : string)
    (warp_regularizer : matrix -> R) (origin_idx' : option nat) : TWPCA :=
  {| n_components := n_components';
     shared_length := shared_length';
     fit_trial_factors := fit_trial_factors';
     warptype := warptype';
     warpinit := warpinit';
     origin_idx := origin_idx';
     nonneg := nonneg';
     _regularizers := fun key =>
       match key with
       | k_trial => trial_regularizer
       | k_time => time_regularizer
       | k_neuron => neuron_regularizer
       | k_warp => warp_regularizer
       end;
     _raw_params := [];
     _params := [];
     _sess := None;
     X := None;
     _num_datapoints := None;
     _mask := None;
     last_idx := None;
     _inv_warp := None;
     _warped_time_factors := None;
     X_pred := None;
     recon_cost := None;
     objective := None;
     obj_history := None;
     _opt := None;
     _train_op := None |}.

(** *** The objective *)

(** [TWPCA.regularization], on the dictionaries it reads: Python's [sum]
    starts from zero and adds the terms in the order of [_params.items()]. *)
Definition regularization_of (regularizers : param_key -> matrix -> R)
    (params : dict (tensor matrix)) : tensor R :=
  fun s => fold_left (fun acc kv => acc + regularizers (fst kv) (snd kv s)) params 0.

Definition regularization (m : TWPCA) : tensor R :=
  regularization_of (_regularizers m) (_params m).

(** [tf.reduce_sum(mask * (X_pred - X)**2) / num_datapoints], in float32:
    the entries of the mask and of the data are float32 constants, an entry
    of the prediction is an infinity when it is beyond the finite range, and
    so is every intermediate result; zero times infinity and zero divided by
    zero are NaN. *)
Definition recon_cost_of (mask : tensor3) (pred : tensor tensor3) (x : tensor3)
    (num_datapoints : nat) : tensor float :=
  fun s =>
    fdiv_count
      (freduce_sum
         (zipWith3d fmul (map3 Fin mask)
            (map3 (fun d => fmul d d)
               (zipWith3d fsub (map3 float32_of_exact (pred s)) (map3 Fin x)))))
      num_datapoints.

(** *** Training *)

(** [niter] runs of [sess.run([objective, train_op], feed_dict={lr: lr})[0]],
    each giving the objective at the variables it starts from. *)
Fixpoint run_steps (obj : tensor float) (train_op : R -> Session -> Session)
    (lr : R) (niter : nat) (sess : Session) : list float * Session :=
  match niter with
  | O => ([], sess)
  | S k =>
      let v := sess_run sess obj in
      let sess' := train_op lr sess in
      let (vs, sess'') := run_steps obj train_op lr k sess' in
      (v :: vs, sess'')
  end.

(** [TWPCA.train(niter, lr)], the progress bar apart. *)
Definition train (m : TWPCA) (niter : nat) (lr : R) : TWPCA * result unit :=
  match objective m, _train_op m with
  | Some obj, Some op =>
      match obj_history m with
      | None => (m, Raise (AttributeError "'TWPCA' object has no attribute 'obj_history'"))
      | Some hist =>
          match _sess m, niter with
          | None, O => (set_training m (hist ++ []) None, Ok tt)
          | None, S _ => (m, Raise (AttributeError "'NoneType' object has no attribute 'run'"))
          | Some sess, _ =>
              let (vals, sess') := run_steps obj op lr niter sess in
              (set_training m (hist ++ vals) (Some sess'), Ok tt)
          end
      end
  | None, _ => (m, Raise (AttributeError "'TWPCA' object has no attribute 'objective'"))
  | _, None => (m, Raise (AttributeError "'TWPCA' object has no attribute '_train_op'"))
  end.

(** Lines 162-163: [self.train] on every pair of [zip(niter, lr)], in order. *)
Fixpoint train_phases (m : TWPCA) (phases : list (nat * R)) : TWPCA * result unit :=
  match phases with
  | [] => (m, Ok tt)
  | (n, l) :: rest =>
      match train m n l with
      | (m', Ok _) => train_phases m' rest
      | (m', Raise e) => (m', Raise e)
      end
  end.

(** *** Fitting *)

(** Lines 78-90: [niter] and [lr] as sequences of the same length. *)
Definition schedule (niter : number_or_iterable nat) (lr : number_or_iterable R)
    : result (list nat * list R) :=
  match niter, lr with
  | Scalar n, Scalar l => Ok ([n], [l])
  | Iterable ns, Iterable ls =>
      if negb (Nat.eqb (length ns) (length ls))
      then Raise (ValueError "niter and lr must have the same length.")
      else Ok (ns, ls)
  | _, _ =>
      Raise (ValueError "niter and lr must either be numbers or iterables of the same length.")
  end.

(** [np.argmax(a, axis=1)] of a 2D boolean array with [n] columns. *)
Definition argmax_axis1 (n : nat) (a : list (list bool)) : result (list nat) :=
  match n with
  | O => Raise (ValueError "attempt to get argmax of an empty sequence")
  | S _ => Ok (map (fun row => match argmax row with Some i => i | None => O end) a)
  end.

(** Lines 104-108: [np.all(np_mask, axis=-1)[:, ::-1]], its [argmax] along
    the time axis, and [n_timesteps - rev_last_idx]. *)
Definition compute_last_idx (n_timesteps : nat) (np_mask : list (list (list bool)))
    : result (list nat) :=
  match argmax_axis1 n_timesteps (map (fun trial => rev (map np_all trial)) np_mask) with
  | Raise e => Raise e
  | Ok rev_last_idx => Ok (map (fun r => (n_timesteps - r)%nat) rev_last_idx)
  end.

(** [tf.nn.softplus if self.nonneg else tf.identity] *)
Definition rectifier (nonneg' : bool) : matrix -> matrix :=
  if nonneg' then map_matrix softplus else fun x => x.

(** Lines 148-159: the session, the caller's or a new one, holds after
    [utils.initialize_new_vars] the initial value of every variable of the
    graph and of the optimizer's slots. *)
Definition initialize_new_vars (sess : option Session) (init : store)
    (optimizer : Optimizer) : Session :=
  {| vars := init; slots := slots_init optimizer |}.

(** Lines 110-159 of [TWPCA.fit]: the warps, the variables, the graph of
    the prediction and of the objective, the session and the training
    operation.  [m] is the estimator the lines above leave, [np_X] the data,
    [x] and [mask] the constants [self.X] and [self._mask]. *)
Definition build_model (m : TWPCA) (np_X : ndarray float) (x mask : tensor3)
    (num_datapoints : nat) (last : list nat) (optimizer : Optimizer)
    (sess : option Session) : TWPCA :=
  let n_trials := dim0 np_X in
  let n_timesteps := dim1 np_X in
  let shared := match shared_length m with Some n => n | None => O end in
  (* lines 110-112 *)
  let generated :=
    generate_warps n_trials n_timesteps shared (warptype m) (warpinit m)
      (origin_idx m) np_X last in
  let warps := fst (fst generated) in
  let inv_warps := snd (fst generated) in
  let warp_init := snd generated in
  let p_warp : tensor matrix := fun s => warps (warp_variables s) in
  let params0 := dict_set (_params m) k_warp p_warp in
  (* lines 114-117 *)
  let factors :=
    compute_lowrank_factors np_X (n_components m) (fit_trial_factors m)
      (nonneg m) last in
  let trial_init := fst (fst factors) in
  let time_init := snd (fst factors) in
  let neuron_init := snd factors in
  (* lines 119-123 *)
  let raw1 := dict_set (_raw_params m) k_time time_var in
  let raw2 := dict_set raw1 k_neuron neuron_var in
  let raw3 := if fit_trial_factors m then dict_set raw2 k_trial trial_var else raw2 in
  (* lines 125-129 *)
  let rect := rectifier (nonneg m) in
  let p_time : tensor matrix := fun s => rect (read time_var s) in
  let p_neuron : tensor matrix := fun s => rect (read neuron_var s) in
  let p_trial : tensor matrix := fun s => rect (read trial_var s) in
  let params1 := dict_set params0 k_time p_time in
  let params2 := dict_set params1 k_neuron p_neuron in
  let params3 := if fit_trial_factors m
                 then dict_set params2 k_trial p_trial else params2 in
  (* lines 131-132; the result of [warp.warp] has one row per timestep *)
  let warped : tensor (ndarray R) := fun s =>
    {| shape := (n_trials, n_timesteps, n_components m);
       data := warp (tile (p_time s) n_trials) (p_warp s) |} in
  (* lines 134-139 *)
  let pred : tensor tensor3 :=
    if fit_trial_factors m
    then fun s => einsum_ik_ijk_nk (p_trial s) (data (warped s)) (p_neuron s)
    else fun s => einsum_ijk_nk (data (warped s)) (p_neuron s) in
  (* lines 141-145 *)
  let cost := recon_cost_of mask pred x num_datapoints in
  let obj : tensor float :=
    fun s => fadd (cost s)
               (float32_of_exact (regularization_of (_regularizers m) params3 s)) in
  (* lines 152-156 *)
  let var_list :=
    map (fun kv => factor_variable (snd kv))
        (filter (fun kv => negb (param_key_eqb (fst kv) k_warp)) raw3)
    ++ [warp_vars] in
  let train_op := minimize optimizer obj var_list in
  (* lines 147-150 and 158-159 *)
  let init := {| time_factors := time_init;
                 neuron_factors := neuron_init;
                 trial_factors := if fit_trial_factors m
                                  then Some trial_init else None;
                 warp_variables := warp_init |} in
  let sess' := initialize_new_vars sess init optimizer in
  {| n_components := n_components m;
     shared_length := shared_length m;
     fit_trial_factors := fit_trial_factors m;
     warptype := warptype m;
     warpinit := warpinit m;
     origin_idx := origin_idx m;
     nonneg := nonneg m;
     _regularizers := _regularizers m;
     _raw_params := raw3;
     _params := params3;
     _sess := Some sess';
     X := Some x;
     _num_datapoints := Some num_datapoints;
     _mask := Some mask;
     last_idx := Some last;
     _inv_warp := Some (fun s => inv_warps (warp_variables s));
     _warped_time_factors := Some warped;
     X_pred := Some pred;
     recon_cost := Some cost;
     objective := Some obj;
     obj_history := Some [];
     _opt := Some optimizer;
     _train_op := Some train_op |}.

(** [TWPCA.fit(X, optimizer, niter, lr, sess)], the progress bar apart.  The
    result is the estimator as the call leaves it, and [Ok] when the call
    returns. *)
Definition fit (m : TWPCA) (X' : ndarray float) (optimizer : Optimizer)
    (niter : number_or_iterable nat) (lr : number_or_iterable R)
    (sess : option Session) : TWPCA * result unit :=
  (* lines 75-76 *)
  let m1 := match shared_length m with
            | None => set_shared_length m (Some (dim1 X'))
            | Some _ => m
            end in
  (* lines 78-90 *)
  match schedule niter lr with
  | Raise e => (m1, Raise e)
  | Ok (niters, lrs) =>
      (* lines 92-102 *)
      let np_X := np_astype_float32 X' in
      let x := map3 nan_to_num (data np_X) in
      let n_timesteps := dim1 np_X in
      let np_mask := map3 isfinite (data X') in
      let num_datapoints := np_sum_bool np_mask in
      let mask := map3 bool_to_float32 np_mask in
      let m2 := set_masked_data m1 x num_datapoints mask in
      (* lines 104-108 *)
      match compute_last_idx n_timesteps np_mask with
      | Raise e => (m2, Raise e)
      | Ok last =>
          (* lines 110-159 *)
          let m3 := build_model m2 np_X x mask num_datapoints last optimizer sess in
          (* lines 161-165 *)
          train_phases m3 (combine niters lrs)
      end
  end.

(** *** Reading the fitted model *)

(** The property [TWPCA.params]. *)
Definition params (m : TWPCA) : result (dict matrix) :=
  match _sess m with
  | None => Raise (AttributeError "'NoneType' object has no attribute 'run'")
  | Some sess => Ok (map (fun kv => (fst kv, sess_run sess (snd kv))) (_params m))
  end.

(** What [predict] may be given as [X]. *)
Inductive predict_argument : Type :=
| X_is_None
| X_is_ndarray (a : ndarray float)
| X_is_other.

(** The names an instance of [TWPCA] answers to: the attributes [__init__]
    and [fit] assign, the methods and properties of the class, and the
    public methods of scikit-learn's [BaseEstimator] and [TransformerMixin]. *)
Definition TWPCA_attributes : list string :=
  [ "n_components"; "shared_length"; "fit_trial_factors"; "warptype"; "warpinit";
    "origin_idx"; "nonneg"; "_regularizers"; "_raw_params"; "_params"; "_sess";
    "X"; "_num_datapoints"; "_mask"; "last_idx"; "_inv_warp";
    "_warped_time_factors"; "X_pred"; "recon_cost"; "objective"; "obj_history";
    "_lr"; "_opt"; "_train_op";
    "fit"; "train"; "params"; "transform"; "predict"; "regularization";
    "get_params"; "set_params"; "fit_transform" ].

Definition has_attribute (name : string) : bool :=
  existsb (String.eqb name) TWPCA_attributes.

(** [w *= t[:, None, :]] *)
Definition scale_by_trial (w : tensor3) (t : matrix) : tensor3 :=
  zipWith (fun wi ti => map (fun wij => zipWith Rmult wij ti) wi) w t.

(** [a[mask, :]] *)
Definition select_rows {A} (mask : list bool) (a : list A) : list A :=
  map snd (filter (fun br => fst br) (combine mask a)).

(** [a.T] of a matrix with [ncols] columns. *)
Definition transpose (ncols : nat) (a : matrix) : matrix :=
  map (fun j => map (fun row => nth j row 0) a) (seq 0 ncols).

(** [np.dot(a, b)] where [b] has [ncols] columns. *)
Definition np_dot (ncols : nat) (a b : matrix) : matrix :=
  map (fun row => map (dot row) (transpose ncols b)) a.

(** [a.reshape(n, t, -1)] of the rows of [a]. *)
Fixpoint reshape_rows {A} (n t : nat) (a : list A) : list (list A) :=
  match n with
  | O => []
  | S n' => firstn t a :: reshape_rows n' t (skipn t a)
  end.

(** Lines 227-251 of [TWPCA.predict]: the prediction for held-out neurons. *)
Definition predict_ndarray (m : TWPCA) (sess : Session) (a : ndarray float)
    : result tensor3 :=
  let '(n_trials, n_timepoints, n_neurons) := shape a in
  match _warped_time_factors m with
  | None => Raise (AttributeError "'TWPCA' object has no attribute '_warped_time_factors'")
  | Some wtf =>
      (* lines 230-235 *)
      let warped_factors : result (ndarray R) :=
        if fit_trial_factors m then
          let w := sess_run sess wtf in
          (* line 232 reads [self.self._params['trial']] *)
          if has_attribute "self" then
            match dict_get (_params m) k_trial with
            | None => Raise (KeyError "trial")
            | Some t =>
                Ok {| shape := shape w;
                      data := scale_by_trial (data w) (sess_run sess t) |}
            end
          else Raise (AttributeError "'TWPCA' object has no attribute 'self'")
        else Ok (sess_run sess wtf) in
      match warped_factors with
      | Raise e => Raise e
      | Ok w =>
          (* lines 236-240 *)
          if negb (Nat.eqb (dim0 w) n_trials)
          then Raise (ValueError "Data does not have the expected number of trials.")
          else if negb (Nat.eqb (dim1 w) n_timepoints)
          then Raise (ValueError "Data does not have the expected number of timepoints.")
          else
            (* lines 241-251 *)
            let time_factors' := concat (data w) in
            let X_unf := concat (data a) in
            let mask := map (forallb isfinite) X_unf in
            let neuron_factors' :=
              lstsq (select_rows mask time_factors')
                    (map (map nan_to_num) (select_rows mask X_unf)) in
            let p := np_dot (n_trials * n_timepoints)
                       (transpose n_neurons neuron_factors')
                       (transpose (n_components m) time_factors') in
            Ok (reshape_rows n_trials n_timepoints
                  (transpose (n_trials * n_timepoints) p))
      end
  end.

(** [TWPCA.predict(X)].  The local variable [X_pred] is bound on the
    branches that assign it; [return X_pred] reads it. *)
Definition predict (m : TWPCA) (X' : predict_argument) : result tensor3 :=
  match _sess m with
  | None =>
      Raise (ValueError
        "No model has been fit - must call TWPCA.fit() before TWPCA.predict().")
  | Some sess =>
      let X_pred_local : result (option tensor3) :=
        match X' with
        | X_is_None =>
            match X_pred m with
            | Some t => Ok (Some (sess_run sess t))
            | None => Raise (AttributeError "'TWPCA' object has no attribute 'X_pred'")
            end
        | X_is_ndarray a =>
            match predict_ndarray m sess a with
            | Ok v => Ok (Some v)
            | Raise e => Raise e
            end
        | X_is_other => Ok None
        end in
      match X_pred_local with
      | Raise e => Raise e
      | Ok (Some v) => Ok v
      | Ok None => Raise (UnboundLocalError "X_pred")
      end
  end.

(** What [transform] may be given as [X]: nothing, a numpy array (here with
    finite entries only, the values [tf.constant] then holds), a TensorFlow
    tensor, or anything else. *)
Inductive transform_argument : Type :=
| T_is_None
| T_is_ndarray (a : ndarray R)
| T_is_Tensor (t : tensor tensor3)
| T_is_other.

(** [TWPCA.transform(X)].  [self._sess.run] is looked up before its argument
    [warp.warp(X_tf, self._inv_warp)] is evaluated. *)
Definition transform (m : TWPCA) (X' : transform_argument) : result tensor3 :=
  (* lines 193-200 *)
  let X_tf : result (tensor tensor3) :=
    match X' with
    | T_is_None =>
        match X m with
        | Some x => Ok (fun _ => x)
        | None => Raise (AttributeError "'TWPCA' object has no attribute 'X'")
        end
    | T_is_ndarray a => Ok (fun _ => data a)
    | T_is_Tensor t => Ok t
    | T_is_other => Raise (ValueError "X must be a numpy array or tensorflow tensor")
    end in
  (* line 202 *)
  match X_tf with
  | Raise e => Raise e
  | Ok x_tf =>
      match _sess m with
      | None => Raise (AttributeError "'NoneType' object has no attribute 'run'")
      | Some sess =>
          match _inv_warp m with
          | None => Raise (AttributeError "'TWPCA' object has no attribute '_inv_warp'")
          | Some inv => Ok (sess_run sess (fun s => warp (x_tf s) (inv s)))
          end
      end
  end.

(** The estimator [fit] hands to [train]: lines 75-159 on [m] and [X'], where
    [last] is the last-valid index of every trial. *)
Definition fitted_graph (m : TWPCA) (X' : ndarray float) (optimizer : Optimizer)
    (sess : option Session) (last : list nat) : TWPCA :=
  let m1 := match shared_length m with
            | None => set_shared_length m (Some (dim1 X'))
            | Some _ => m
            end in
  let np_X := np_astype_float32 X' in
  let x := map3 nan_to_num (data np_X) in
  let np_mask := map3 isfinite (data X') in
  let mask := map3 bool_to_float32 np_mask in
  build_model (set_masked_data m1 x (np_sum_bool np_mask) mask) np_X x mask
    (np_sum_bool np_mask) last optimizer sess.

(** What training leaves as it is: every attribute but [obj_history] and
    the state of the session. *)
Definition same_graph (m m' : TWPCA) : Prop :=
  n_components m' = n_components m /\ shared_length m' = shared_length m
  /\ fit_trial_factors m' = fit_trial_factors m /\ nonneg m' = nonneg m
  /\ _regularizers m' = _regularizers m /\ _raw_params m' = _raw_params m
  /\ _params m' = _params m /\ X m' = X m
  /\ _num_datapoints m' = _num_datapoints m /\ _mask m' = _mask m
  /\ last_idx m' = last_idx m /\ _warped_time_factors m' = _warped_time_factors m
  /\ X_pred m' = X_pred m /\ recon_cost m' = recon_cost m
  /\ objective m' = objective m /\ _train_op m' = _train_op m.

End Model.

(** ** The words of the specification *)

(** The index of the first element of [l] that satisfies [p]. *)
Fixpoint first_index {A} (p : A -> bool) (l : list A) : option nat :=
  match l with
  | [] => None
  | a :: l' => if p a then Some O else option_map S (first_index p l')
  end.

(** A timestep at which all channels are finite. *)
Definition fully_valid (row : list float) : bool := forallb isfinite row.

(** The last-valid index of a trial of [T] timesteps: [T] minus the index,
    in the time-reversed trial, of the first fully valid timestep; [T] when
    there is none. *)
Definition last_valid_index (T : nat) (trial : list (list float)) : nat :=
  match first_index fully_valid (rev trial) with
  | Some r => (T - r)%nat
  | None => T
  end.

(** The entries of a mask, a prediction and a data tensor, side by side. *)
Definition entries (mask pred x : tensor3) : list (R * (R * R)) :=
  concat (concat (zipWith3d pair mask (zipWith3d pair pred x))).

(** The mask value of an entry is 1. *)
Definition mask_is_one (e : R * (R * R)) : bool :=
  if Req_dec_T (fst e) 1 then true else false.

(** The squared difference between the prediction and the data at an entry. *)
Definition squared_difference (e : R * (R * R)) : R := (fst (snd e) - snd (snd e)) ^ 2.

(** The sum, over the entries whose mask value is 1, of the squared
    difference between the prediction and the data. *)
Definition masked_squared_error (mask pred x : tensor3) : R :=
  sum_list (map squared_difference (filter mask_is_one (entries mask pred x))).


(** [f 0 + ... + f (K - 1)] *)
Definition sum_over (K : nat) (f : nat -> R) : R := sum_list (map f (seq 0 K)).

(** Entries by index, zero outside the array. *)
Definition entry2 (a : matrix) (i k : nat) : R := nth k (nth i a []) 0.
Definition entry3 (a : tensor3) (i j k : nat) : R := nth k (nth j (nth i a []) []) 0.

(** The iteration counts of a schedule, added up. *)
Definition total_iterations (niter : number_or_iterable nat) : nat :=
  match niter with
  | Scalar n => n
  | Iterable ns => list_sum ns
  end.

(** Exactly one of [niter] and [lr] is a sequence, or both are and their
    lengths differ. *)
Definition schedule_mismatch {A C} (niter : number_or_iterable A)
    (lr : number_or_iterable C) : Prop :=
  match niter, lr with
  | Scalar _, Scalar _ => False
  | Iterable ns, Iterable ls => length ns <> length ls
  | _, _ => True
  end.


(** Every entry of a matrix is nonnegative. *)
Definition nonnegative (a : matrix) : Prop := Forall (Forall (fun v => 0 <= v)) a.

(** The variable behind each factor. *)
Definition factor_of (key : param_key) : option variable :=
  match key with
  | k_time => Some time_var
  | k_neuron => Some neuron_var
  | k_trial => Some trial_var
  | k_warp => None
  end.

(** The neuron factors [predict] refits for the array [a] from the warped
    time factors [W] (lines 243-248): least squares over the flattened
    (trial, time) rows at which every channel of [a] is finite. *)
Definition held_out_neuron_factors `{B : Backend} (W : tensor3) (a : ndarray float)
    : matrix :=
  let X_unf := concat (data a) in
  let mask := map (forallb isfinite) X_unf in
  lstsq (select_rows mask (concat W))
        (map (map nan_to_num) (select_rows mask X_unf)).

(** The prediction at an entry, and its squared difference from the data,
    are within the finite range of float32. *)
Definition entry_in_range (e : R * (R * R)) : Prop :=
  Rabs (fst (snd e)) <= FLT_MAX /\ squared_difference e <= FLT_MAX.

(** A float32 that is not negative: NaN, plus infinity, or a finite number
    that is not negative. *)
Definition not_negative (a : float) : Prop :=
  match a with
  | Fin r => 0 <= r
  | NaN => True
  | PosInf => True
  | NegInf => False
  end.

(** The objective values of [niter] optimizer steps at the rate [lr] from
    the session [sess], one per step: the value of step [k] is the objective
    at the variables the [k] steps before it leave. *)
Definition objective_values `{B : Backend} (obj : tensor float)
    (op : R -> Session -> Session) (lr : R) (niter : nat) (sess : Session)
    : list float :=
  map (fun k => sess_run (Nat.iter k (op lr) sess) obj) (seq 0 niter).

(** The objective values of the phases of a schedule, one phase after the
    other, and the session the phases leave. *)
Fixpoint schedule_values `{B : Backend} (obj : tensor float)
    (op : R -> Session -> Session) (phases : list (nat * R)) (sess : Session)
    : list float :=
  match phases with
  | [] => []
  | (n, l) :: rest =>
      objective_values obj op l n sess
      ++ schedule_values obj op rest (Nat.iter n (op l) sess)
  end.

Fixpoint schedule_session `{B : Backend} (op : R -> Session -> Session)
    (phases : list (nat * R)) (sess : Session) : Session :=
  match phases with
  | [] => sess
  | (n, l) :: rest => schedule_session op rest (Nat.iter n (op l) sess)
  end.

(** ** A small instance *)

(** Collaborators for the examples: warps that leave a trial as it is,
    initial factors of ones, and an optimizer whose step changes nothing. *)
Definition example_backend : Backend :=
  {| WarpVars := unit;
     OptSlots := unit;
     generate_warps := fun n_trials n_timesteps _ _ _ _ _ _ =>
       (fun _ => repeat (repeat 0 n_timesteps) n_trials,
        fun _ => repeat (repeat 0 n_timesteps) n_trials,
        tt);
     warp_trial := fun a _ => a;
     compute_lowrank_factors := fun a k _ _ _ =>
       (repeat (repeat 1 k) (dim0 a),
        repeat (repeat 1 k) (dim1 a),
        repeat (repeat 1 k) (dim2 a));
     lstsq := fun _ b => b |}.

Definition example_optimizer : @Optimizer example_backend :=
  {| slots_init := tt : @OptSlots example_backend;
     minimize := fun _ _ _ sess => sess |}.

(** One trial of two timesteps and one channel, the second timestep missing. *)
Definition example_X : ndarray float :=
  {| shape := (1%nat, 2%nat, 1%nat); data := [[[Fin 3]; [NaN]]] |}.

(** Two trials of one timestep and one channel. *)
Definition example_held_out : ndarray float :=
  {| shape := (2%nat, 1%nat, 1%nat); data := [[[Fin 1]]; [[Fin 2]]] |}.

(** [TWPCA(1)] and [TWPCA(1, nonneg=True, fit_trial_factors=True)], with
    regularizers that are zero. *)
Definition example_model : @TWPCA example_backend :=
  __init__ 1 None (fun _ => 0) (fun _ => 0) (fun _ => 0) false false
    "nonlinear" "identity" (fun _ => 0) None.

Definition example_trial_model : @TWPCA example_backend :=
  __init__ 1 None (fun _ => 0) (fun _ => 0) (fun _ => 0) true true
    "nonlinear" "identity" (fun _ => 0) None.

(** Values of the variables: two timesteps, one component, one channel. *)
Definition example_store : @store example_backend :=
  {| time_factors := [[2]; [3]];
     neuron_factors := [[5]];
     trial_factors := Some [[7]];
     warp_variables := tt : @WarpVars example_backend |}.

(** The two after [fit(example_X, niter=2, lr=1)]. *)
Definition example_fitted : @TWPCA example_backend :=
  fst (fit example_model example_X example_optimizer (Scalar 2%nat) (Scalar 1) None).

Definition example_trial_fitted : @TWPCA example_backend :=
  fst (fit example_trial_model example_X example_optimizer (Scalar 2%nat) (Scalar 1) None).

(** The second after [train(3, 1)]. *)
Definition example_trial_trained : @TWPCA example_backend :=
  fst (train_phases example_trial_fitted [(3%nat, 1)]).


(** The first fitted again, on two trials of one timestep. *)
Definition example_refitted : @TWPCA example_backend :=
  fst (fit example_fitted example_held_out example_optimizer (Scalar 1%nat)
         (Scalar 1) None).

(** One trial of two timesteps and one channel, every entry finite. *)
Definition example_finite : ndarray R :=
  {| shape := (1%nat, 2%nat, 1%nat); data := [[[3]; [4]]] |}.

(** One entry that float32 does not hold, [2^24 + 1], and the estimator
    after [fit] on it. *)
Definition example_wide : ndarray float :=
  {| shape := (1%nat, 1%nat, 1%nat); data := [[[Fin 16777217]]] |}.

Definition example_wide_fitted : @TWPCA example_backend :=
  fst (fit example_model example_wide example_optimizer (Scalar 1%nat) (Scalar 1) None).



(** One trial of no timestep. *)
Definition example_no_timestep : ndarray float :=
  {| shape := (1%nat, 0%nat, 1%nat); data := [[]] |}.

(** ** The cast to float32 *)

Lemma ln_2_pos : 0 < ln 2.
Proof. rewrite <- ln_1. apply ln_increasing; lra. Qed.

Lemma ln_powerRZ_2 (k : Z) : ln (powerRZ 2 k) = IZR k * ln 2.
Proof. rewrite powerRZ_Rpower by lra. apply ln_Rpower. Qed.

Lemma Int_part_unique (r : R) (z : Z) : IZR z <= r < IZR z + 1 -> Int_part r = z.
Proof. intros H. symmetry. apply Int_part_spec. lra. Qed.

(** The exponent of a number of the binade [2^k, 2^(k+1)). *)
Lemma binade_exponent (a : R) (k : Z) :
  powerRZ 2 k <= a < powerRZ 2 (k + 1) -> Int_part (ln a / ln 2) = k.
Proof.
  intros [Hl Hu].
  pose proof (powerRZ_lt 2 k ltac:(lra)) as Hp.
  pose proof ln_2_pos as H2.
  apply Int_part_unique.
  assert (L1 : IZR k * ln 2 <= ln a).
  { rewrite <- ln_powerRZ_2.
    destruct Hl as [Hl|Hl]; [left; apply ln_increasing; lra | rewrite Hl; lra]. }
  assert (L2 : ln a < (IZR k + 1) * ln 2).
  { rewrite <- plus_IZR, <- ln_powerRZ_2. apply ln_increasing; lra. }
  split.
  - apply (Rmult_le_reg_r (ln 2)); [exact H2|].
    unfold Rdiv. rewrite Rmult_assoc, Rinv_l by lra. lra.
  - apply (Rmult_lt_reg_r (ln 2)); [exact H2|].
    unfold Rdiv. rewrite Rmult_assoc, Rinv_l by lra. lra.
Qed.

Lemma float32_exponent_normal (r : R) (k : Z) :
  (-126 <= k)%Z -> powerRZ 2 k <= Rabs r < powerRZ 2 (k + 1) ->
  float32_exponent r = k.
Proof.
  intros Hk Hr. unfold float32_exponent.
  rewrite (binade_exponent _ _ Hr). lia.
Qed.

Lemma float32_exponent_subnormal (r : R) :
  0 < Rabs r < powerRZ 2 (-126) -> float32_exponent r = (-126)%Z.
Proof.
  intros [H0 H1]. unfold float32_exponent.
  pose proof ln_2_pos as H2.
  assert (L : ln (Rabs r) < IZR (-126) * ln 2).
  { rewrite <- ln_powerRZ_2. apply ln_increasing; lra. }
  assert (Q : ln (Rabs r) / ln 2 < IZR (-126)).
  { apply (Rmult_lt_reg_r (ln 2)); [exact H2|].
    unfold Rdiv. rewrite Rmult_assoc, Rinv_l by lra. lra. }
  destruct (base_Int_part (ln (Rabs r) / ln 2)) as [Hb _].
  assert (Hz : (Int_part (ln (Rabs r) / ln 2) < -126)%Z) by (apply lt_IZR; lra).
  lia.
Qed.

Lemma float32_exponent_zero : float32_exponent 0 = 0%Z.
Proof.
  assert (L : ln 0 = 0) by (unfold ln; destruct (Rlt_dec 0 0) as [F|F]; [destruct (Rlt_irrefl 0 F) | reflexivity]).
  unfold float32_exponent. rewrite Rabs_R0, L.
  unfold Rdiv. rewrite Rmult_0_l.
  rewrite (Int_part_unique 0 0) by lra. reflexivity.
Qed.

Lemma round_half_even_IZR (n : Z) : round_half_even (IZR n) = n.
Proof.
  unfold round_half_even.
  rewrite (Int_part_unique (IZR n) n) by lra.
  destruct (Rlt_dec (IZR n - IZR n) (/ 2)); [reflexivity | lra].
Qed.

(** A multiple of the unit in the last place of its own binade, within the
    finite range, is rounded to itself. *)
Lemma round_float32_multiple (r : R) (n : Z) :
  r = IZR n * powerRZ 2 (float32_exponent r - 23) -> Rabs r <= FLT_MAX ->
  round_float32 r = Fin r.
Proof.
  intros Hr Hm. unfold round_float32.
  set (ulp := powerRZ 2 (float32_exponent r - 23)) in *.
  assert (Hu : 0 < ulp) by (apply powerRZ_lt; lra).
  replace (r / ulp) with (IZR n)
    by (rewrite Hr at 1; unfold Rdiv; rewrite Rmult_assoc, Rinv_r by lra; lra).
  rewrite round_half_even_IZR, <- Hr.
  destruct (Rlt_dec FLT_MAX (Rabs r)); [lra | reflexivity].
Qed.

Lemma FLT_MAX_value : FLT_MAX = 340282346638528859811704183484516925440.
Proof.
  unfold FLT_MAX.
  replace (2 ^ 23) with 8388608
    by (rewrite pow_IZR; apply f_equal; vm_compute; reflexivity).
  replace (2 ^ 127) with 170141183460469231731687303715884105728
    by (rewrite pow_IZR; apply f_equal; vm_compute; reflexivity).
  lra.
Qed.

Lemma FLT_MAX_pos : 0 < FLT_MAX.
Proof. rewrite FLT_MAX_value. lra. Qed.

(** Every number a float32 holds is left as it is by the cast. *)
Lemma round_float32_representable (r : R) :
  float32_representable r -> round_float32 r = Fin r.
Proof.
  intros [Hm [H0 | [(n & k & Hk & Hb & Hr) | (n & Hs & Hr)]]].
  - subst r. apply (round_float32_multiple 0 0); [|exact Hm].
    rewrite Rmult_0_l. reflexivity.
  - apply (round_float32_multiple r n); [|exact Hm].
    rewrite (float32_exponent_normal r k Hk Hb). exact Hr.
  - apply (round_float32_multiple r n); [|exact Hm].
    rewrite (float32_exponent_subnormal r Hs). exact Hr.
Qed.

Lemma powerRZ_2_nonneg (k : Z) : (0 <= k)%Z -> powerRZ 2 k = IZR (2 ^ k).
Proof.
  intros H. rewrite <- (Z2Nat.id k H) at 1. rewrite <- pow_powerRZ, pow_IZR.
  rewrite Z2Nat.id by exact H. reflexivity.
Qed.

(** The integers below [2^24] in absolute value are float32 numbers. *)
Lemma small_integer_representable (z : Z) :
  (Z.abs z < 2 ^ 24)%Z -> float32_representable (IZR z).
Proof.
  intros Hz. split.
  - rewrite <- abs_IZR, FLT_MAX_value. apply IZR_le. simpl Z.pow in Hz. lia.
  - destruct (Z.eq_dec z 0) as [->|Hnz]; [left; reflexivity|].
    right; left.
    exists (z * 2 ^ (23 - Z.log2 (Z.abs z)))%Z, (Z.log2 (Z.abs z)).
    assert (Hp : (0 < Z.abs z)%Z) by lia.
    pose proof (Z.log2_nonneg (Z.abs z)) as Hl0.
    destruct (Z.log2_spec (Z.abs z) Hp) as [Hlo Hhi].
    assert (Hl24 : (Z.log2 (Z.abs z) < 24)%Z).
    { apply Z.log2_lt_pow2; [exact Hp | exact Hz]. }
    split; [lia|]. split.
    + rewrite <- abs_IZR, !powerRZ_2_nonneg by lia.
      split; [apply IZR_le | apply IZR_lt]; [exact Hlo|].
      replace (Z.log2 (Z.abs z) + 1)%Z with (Z.succ (Z.log2 (Z.abs z))) by lia.
      exact Hhi.
    + replace (Z.log2 (Z.abs z) - 23)%Z with (- (23 - Z.log2 (Z.abs z)))%Z by lia.
      rewrite powerRZ_neg', powerRZ_2_nonneg by lia.
      rewrite mult_IZR.
      assert (Hq : 0 < IZR (2 ^ (23 - Z.log2 (Z.abs z)))).
      { apply IZR_lt. apply Z.pow_pos_nonneg; lia. }
      rewrite Rmult_assoc, Rinv_r by lra. lra.
Qed.


(** [16777217 = 2^24 + 1] is not a float32: it lies half-way between
    [2^24] and [2^24 + 2], and the tie goes to the even multiple. *)
Lemma round_float32_16777217 : round_float32 16777217 = Fin 16777216.
Proof.
  unfold round_float32.
  rewrite (float32_exponent_normal 16777217 24); [|lia|].
  2:{ rewrite (Rabs_pos_eq 16777217) by lra.
      rewrite !powerRZ_2_nonneg by lia. simpl Z.pow. lra. }
  simpl Z.sub.
  replace (powerRZ 2 1) with 2 by (simpl; lra).
  assert (E : round_half_even (16777217 / 2) = 8388608%Z).
  { unfold round_half_even.
    rewrite (Int_part_unique (16777217 / 2) 8388608) by lra.
    destruct (Rlt_dec (16777217 / 2 - 8388608) (/ 2)); [lra|].
    destruct (Rlt_dec (/ 2) (16777217 / 2 - 8388608)); [lra|]. reflexivity. }
  rewrite E.
  replace (8388608 * 2) with 16777216 by lra.
  destruct (Rlt_dec FLT_MAX (Rabs 16777216)) as [H1|H1]; [|reflexivity].
  rewrite Rabs_pos_eq, FLT_MAX_value in H1; lra.
Qed.

(** What the cast and [np.nan_to_num] leave is within the finite range. *)
Lemma nan_to_num_astype_range (v : float) :
  Rabs (nan_to_num (astype_float32 v)) <= FLT_MAX.
Proof.
  pose proof FLT_MAX_pos as Hp.
  destruct v as [r| | |]; simpl.
  - unfold round_float32.
    destruct (Rlt_dec FLT_MAX _) as [H|H].
    + destruct (Rlt_dec 0 r); simpl;
        [rewrite Rabs_pos_eq by lra | rewrite Rabs_Ropp, Rabs_pos_eq by lra]; lra.
    + simpl. lra.
  - rewrite Rabs_R0. lra.
  - rewrite Rabs_pos_eq by lra. lra.
  - rewrite Rabs_Ropp, Rabs_pos_eq by lra. lra.
Qed.

(** ** Properties *)

Section Properties.
Context `{B : Backend}.

(** *** Training and the shape of a successful [fit] *)

Lemma same_graph_refl (m : TWPCA) : same_graph m m.
Proof. unfold same_graph; repeat split. Qed.

Lemma same_graph_trans (m1 m2 m3 : TWPCA) :
  same_graph m1 m2 -> same_graph m2 m3 -> same_graph m1 m3.
Proof.
  unfold same_graph; intros H12 H23.
  repeat match goal with H : _ /\ _ |- _ => destruct H end.
  repeat split; congruence.
Qed.

Lemma train_same_graph (m m' : TWPCA) (niter : nat) (lr : R) (r : result unit) :
  train m niter lr = (m', r) -> same_graph m m'.
Proof.
  unfold train; intros H.
  destruct (objective m) as [obj|], (_train_op m) as [op|];
    try (inversion H; apply same_graph_refl).
  destruct (obj_history m); try (inversion H; apply same_graph_refl).
  destruct (_sess m) as [sess|].
  - destruct (run_steps obj op lr niter sess); inversion H; subst.
    unfold same_graph; repeat split.
  - destruct niter; inversion H; subst; [unfold same_graph; repeat split | apply same_graph_refl].
Qed.

Lemma train_phases_same_graph (phases : list (nat * R)) :
  forall (m m' : TWPCA) (r : result unit),
    train_phases m phases = (m', r) -> same_graph m m'.
Proof.
  induction phases as [|[n l] rest IH]; intros m m' r H; simpl in H.
  - inversion H; apply same_graph_refl.
  - destruct (train m n l) as [m1 [[]|e]] eqn:E.
    + eapply same_graph_trans; [eapply train_same_graph; eauto | eapply IH; eauto].
    + inversion H; subst. eapply train_same_graph; eauto.
Qed.

Lemma run_steps_length (obj : tensor float) (op : R -> Session -> Session) (lr : R)
    (niter : nat) :
  forall sess, length (fst (run_steps obj op lr niter sess)) = niter.
Proof.
  induction niter as [|k IH]; intros sess; simpl; [reflexivity|].
  specialize (IH (op lr sess)).
  destruct (run_steps obj op lr k (op lr sess)); simpl in *; congruence.
Qed.

(** A call to [train] that returns has appended [niter] values. *)
Lemma train_appends (m m' : TWPCA) (niter : nat) (lr : R) :
  train m niter lr = (m', Ok tt) ->
  exists h new,
    obj_history m = Some h /\ obj_history m' = Some (h ++ new) /\ length new = niter.
Proof.
  unfold train; intros H.
  destruct (objective m) as [obj|], (_train_op m) as [op|]; try discriminate.
  destruct (obj_history m) as [h|]; try discriminate.
  destruct (_sess m) as [sess|].
  - pose proof (run_steps_length obj op lr niter sess) as L.
    destruct (run_steps obj op lr niter sess) as [vals sess']; inversion H; subst.
    exists h, vals; auto.
  - destruct niter; inversion H; subst. exists h, []; auto.
Qed.

(** On an estimator that has its graph, its history and its session,
    [train] returns. *)
Lemma train_returns (m : TWPCA) (niter : nat) (lr : R) :
  objective m <> None -> _train_op m <> None -> obj_history m <> None ->
  _sess m <> None ->
  exists m', train m niter lr = (m', Ok tt) /\ _sess m' <> None.
Proof.
  unfold train; intros Ho Ht Hh Hs.
  destruct (objective m) as [obj|], (_train_op m) as [op|]; try congruence.
  destruct (obj_history m) as [h|]; try congruence.
  destruct (_sess m) as [sess|]; try congruence.
  destruct (run_steps obj op lr niter sess) as [vals sess'].
  eexists; split; [reflexivity | simpl; congruence].
Qed.

Lemma train_phases_appends (phases : list (nat * R)) :
  forall (m m' : TWPCA) (h : list float),
    train_phases m phases = (m', Ok tt) -> obj_history m = Some h ->
    exists new,
      obj_history m' = Some (h ++ new) /\ length new = list_sum (map fst phases).
Proof.
  induction phases as [|[n l] rest IH]; intros m m' h H Hh; simpl in H.
  - inversion H; subst. exists []; rewrite app_nil_r; auto.
  - destruct (train m n l) as [m1 [[]|e]] eqn:E; try discriminate.
    destruct (train_appends _ _ _ _ E) as (h0 & new & H0 & H1 & L).
    assert (h0 = h) by congruence; subst h0.
    destruct (IH _ _ _ H H1) as (new' & H2 & L').
    exists (new ++ new'); split.
    + rewrite H2, app_assoc; reflexivity.
    + rewrite length_app; simpl; lia.
Qed.

Lemma train_phases_returns (phases : list (nat * R)) :
  forall m : TWPCA,
    objective m <> None -> _train_op m <> None -> obj_history m <> None ->
    _sess m <> None ->
    exists m', train_phases m phases = (m', Ok tt).
Proof.
  induction phases as [|[n l] rest IH]; intros m Ho Ht Hh Hs; simpl.
  - eauto.
  - destruct (train_returns m n l Ho Ht Hh Hs) as (m1 & E & Hs1).
    rewrite E.
    pose proof (train_same_graph _ _ _ _ _ E) as G.
    destruct (train_appends _ _ _ _ E) as (h & new & _ & H1 & _).
    unfold same_graph in G.
    repeat match goal with H : _ /\ _ |- _ => destruct H end.
    apply IH; congruence.
Qed.

(** A call to [fit] that returns has passed the two checks and trained the
    graph of [fitted_graph]. *)
Lemma fit_returned (m m' : TWPCA) (X' : ndarray float) (optimizer : Optimizer)
    (niter : number_or_iterable nat) (lr : number_or_iterable R)
    (sess : option Session) :
  fit m X' optimizer niter lr sess = (m', Ok tt) ->
  exists niters lrs last,
    schedule niter lr = Ok (niters, lrs)
    /\ compute_last_idx (dim1 X') (map3 isfinite (data X')) = Ok last
    /\ train_phases (fitted_graph m X' optimizer sess last) (combine niters lrs)
       = (m', Ok tt).
Proof.
  unfold fit; intros H.
  destruct (schedule niter lr) as [[niters lrs]|e]; [|discriminate].
  change (dim1 (np_astype_float32 X')) with (dim1 X') in H.
  destruct (compute_last_idx (dim1 X') (map3 isfinite (data X'))) as [last|e] eqn:E;
    [|discriminate].
  exists niters, lrs, last; repeat split; auto.
Qed.

Lemma fit_same_graph (m m' : TWPCA) (X' : ndarray float) (optimizer : Optimizer)
    (niter : number_or_iterable nat) (lr : number_or_iterable R)
    (sess : option Session) :
  fit m X' optimizer niter lr sess = (m', Ok tt) ->
  exists last,
    compute_last_idx (dim1 X') (map3 isfinite (data X')) = Ok last
    /\ same_graph (fitted_graph m X' optimizer sess last) m'.
Proof.
  intros H. destruct (fit_returned _ _ _ _ _ _ _ H) as (ns & ls & last & _ & E & T).
  exists last; split; [exact E | eapply train_phases_same_graph; eauto].
Qed.

Lemma train_keeps_session (m m' : TWPCA) (niter : nat) (lr : R) (r : result unit) :
  train m niter lr = (m', r) -> _sess m <> None -> _sess m' <> None.
Proof.
  unfold train; intros H Hs.
  destruct (objective m) as [obj|], (_train_op m) as [op|]; try (inversion H; subst; auto).
  destruct (obj_history m); try (inversion H; subst; auto).
  destruct (_sess m) as [sess|]; [|congruence].
  destruct (run_steps obj op lr niter sess); inversion H; subst; simpl; congruence.
Qed.

Lemma train_phases_keeps_session (phases : list (nat * R)) :
  forall (m m' : TWPCA) (r : result unit),
    train_phases m phases = (m', r) -> _sess m <> None -> _sess m' <> None.
Proof.
  induction phases as [|[n l] rest IH]; intros m m' r H Hs; simpl in H.
  - inversion H; subst; auto.
  - destruct (train m n l) as [m1 [[]|e]] eqn:E.
    + eapply IH; eauto. eapply train_keeps_session; eauto.
    + inversion H; subst. eapply train_keeps_session; eauto.
Qed.

(** A fitted estimator has a session. *)
Lemma fit_has_session (m m' : TWPCA) (X' : ndarray float) (optimizer : Optimizer)
    (niter : number_or_iterable nat) (lr : number_or_iterable R)
    (sess : option Session) :
  fit m X' optimizer niter lr sess = (m', Ok tt) -> exists sess', _sess m' = Some sess'.
Proof.
  intros H. destruct (fit_returned _ _ _ _ _ _ _ H) as (ns & ls & last & _ & _ & T).
  apply train_phases_keeps_session in T; [|simpl; discriminate].
  destruct (_sess m') as [sess'|]; [eauto | congruence].
Qed.

(** *** The schedule check *)

(** C4: when exactly one of [niter] and [lr] is a sequence, or both are and
    their lengths differ, [fit] raises [ValueError] (the configuration error
    of [model.py]) from lines 88 and 90, before the graph is built and any
    step is run: the history, the raw parameters, the parameters and the
    session are the ones the estimator had, and nothing but [shared_length]
    may have been set. *)
Theorem fit_schedule_mismatch_raises (m : TWPCA) (X' : ndarray float)
    (optimizer : Optimizer) (niter : number_or_iterable nat)
    (lr : number_or_iterable R) (sess : option Session) :
  schedule_mismatch niter lr ->
  exists msg m',
    fit m X' optimizer niter lr sess = (m', Raise (ValueError msg))
    /\ obj_history m' = obj_history m
    /\ _raw_params m' = _raw_params m
    /\ _params m' = _params m
    /\ _sess m' = _sess m
    /\ (m' = m \/ m' = set_shared_length m (Some (dim1 X'))).
Proof.
  intros Hmis. unfold fit.
  assert (Hs : exists msg, schedule niter lr = Raise (ValueError msg)).
  { destruct niter as [n|ns], lr as [l|ls]; simpl in *; try contradiction; eauto.
    destruct (Nat.eqb_spec (length ns) (length ls)); [contradiction | simpl; eauto]. }
  destruct Hs as [msg Hs]; rewrite Hs.
  exists msg. destruct (shared_length m); eexists; repeat split; auto.
Qed.

(** *** The objective history *)

(** The values [run_steps] records are the objective at the variables each
    step starts from, and the session it leaves is the one after [niter]
    steps. *)
Lemma run_steps_values (obj : tensor float) (op : R -> Session -> Session) (lr : R)
    (niter : nat) :
  forall sess,
    run_steps obj op lr niter sess
    = (objective_values obj op lr niter sess, Nat.iter niter (op lr) sess).
Proof.
  unfold objective_values.
  induction niter as [|k IH]; intros sess; [reflexivity|].
  cbn [run_steps]. rewrite IH.
  rewrite <- Nat.iter_succ_r. f_equal.
  cbn [seq map]. f_equal.
  rewrite <- seq_shift, map_map.
  apply map_ext; intros j. rewrite <- Nat.iter_succ_r. reflexivity.
Qed.

Lemma train_values (m m' : TWPCA) (niter : nat) (lr : R) (sess : Session) :
  train m niter lr = (m', Ok tt) -> _sess m = Some sess ->
  exists obj op h,
    objective m = Some obj /\ _train_op m = Some op /\ obj_history m = Some h
    /\ obj_history m' = Some (h ++ objective_values obj op lr niter sess)
    /\ _sess m' = Some (Nat.iter niter (op lr) sess).
Proof.
  unfold train; intros H Hs.
  destruct (objective m) as [obj|], (_train_op m) as [op|]; try discriminate.
  destruct (obj_history m) as [h|]; try discriminate.
  rewrite Hs, run_steps_values in H. inversion H; subst; simpl.
  exists obj, op, h; repeat split; reflexivity.
Qed.

Lemma train_phases_values (phases : list (nat * R)) :
  forall (m m' : TWPCA) (h : list float) (obj : tensor float)
         (op : R -> Session -> Session) (sess : Session),
    train_phases m phases = (m', Ok tt) -> obj_history m = Some h ->
    objective m = Some obj -> _train_op m = Some op -> _sess m = Some sess ->
    obj_history m' = Some (h ++ schedule_values obj op phases sess)
    /\ _sess m' = Some (schedule_session op phases sess).
Proof.
  induction phases as [|[n l] rest IH]; intros m m' h obj op sess H Hh Ho Ht Hs;
    simpl in H.
  - inversion H; subst. simpl. rewrite app_nil_r. auto.
  - destruct (train m n l) as [m1 [[]|e]] eqn:E; try discriminate.
    destruct (train_values _ _ _ _ _ E Hs) as (obj' & op' & h' & Ho' & Ht' & Hh' & H1 & S1).
    assert (obj' = obj) by congruence. assert (op' = op) by congruence.
    assert (h' = h) by congruence. subst obj' op' h'.
    pose proof (train_same_graph _ _ _ _ _ E) as G. unfold same_graph in G.
    destruct G as (_ & _ & _ & _ & _ & _ & _ & _ & _ & _ & _ & _ & _ & _ & Go & Gt).
    destruct (IH m1 m' _ obj op _ H H1 ltac:(congruence) ltac:(congruence) S1)
      as (H2 & S2).
    simpl. rewrite app_assoc. auto.
Qed.

Lemma schedule_values_length (obj : tensor float) (op : R -> Session -> Session)
    (phases : list (nat * R)) :
  forall sess,
    length (schedule_values obj op phases sess) = list_sum (map fst phases).
Proof.
  induction phases as [|[n l] rest IH]; intros sess; [reflexivity|].
  simpl. rewrite length_app, IH. unfold objective_values.
  rewrite length_map, length_seq. reflexivity.
Qed.

Lemma schedule_total (niter : number_or_iterable nat) (lr : number_or_iterable R)
    (ns : list nat) (ls : list R) :
  schedule niter lr = Ok (ns, ls) ->
  list_sum (map fst (combine ns ls)) = total_iterations niter.
Proof.
  intros Hs.
  destruct niter as [n|ns'], lr as [l|ls']; simpl in Hs; try discriminate.
  - inversion Hs; subst; simpl; lia.
  - destruct (Nat.eqb_spec (length ns') (length ls')); simpl in Hs; [|discriminate].
    inversion Hs; subst. simpl.
    clear - e. revert ls e.
    induction ns as [|n ns IH]; intros [|l ls] e; simpl in *; try discriminate;
      [reflexivity|].
    f_equal; apply IH; lia.
Qed.

(** C5: [train(niter, lr)] appends exactly [niter] values to the history and
    leaves the earlier entries as they are; the values are the objective at
    the variables each of the [niter] optimizer steps starts from, one per
    step, and the session is left after those steps.  A sequence of [train]
    calls appends the values of its phases, one phase after the other: the
    sum of their iteration counts.  [fit] starts a new history (line 145;
    the entries of an earlier [fit] on the same instance are not kept) and
    trains every phase of its schedule from the session it initialises, so
    the history after [fit] holds the values of that schedule and its length
    is the sum of the iteration counts; [train] calls after [fit] append to
    it. *)
Theorem obj_history_append_only :
  (forall (m m' : TWPCA) (niter : nat) (lr : R),
      train m niter lr = (m', Ok tt) ->
      exists h new,
        obj_history m = Some h /\ obj_history m' = Some (h ++ new)
        /\ length new = niter
        /\ forall sess, _sess m = Some sess ->
             exists obj op,
               objective m = Some obj /\ _train_op m = Some op
               /\ new = objective_values obj op lr niter sess
               /\ _sess m' = Some (Nat.iter niter (op lr) sess))
  /\ (forall (phases : list (nat * R)) (m m' : TWPCA) (h : list float),
      train_phases m phases = (m', Ok tt) -> obj_history m = Some h ->
      exists new,
        obj_history m' = Some (h ++ new)
        /\ length new = list_sum (map fst phases)
        /\ forall obj op sess,
             objective m = Some obj -> _train_op m = Some op ->
             _sess m = Some sess ->
             new = schedule_values obj op phases sess
             /\ _sess m' = Some (schedule_session op phases sess))
  /\ (forall (m m' : TWPCA) (X' : ndarray float) (optimizer : Optimizer)
        (niter : number_or_iterable nat) (lr : number_or_iterable R)
        (sess : option Session),
      fit m X' optimizer niter lr sess = (m', Ok tt) ->
      exists h, obj_history m' = Some h /\ length h = total_iterations niter
        /\ exists ns ls last obj op sess0,
             schedule niter lr = Ok (ns, ls)
             /\ compute_last_idx (dim1 X') (map3 isfinite (data X')) = Ok last
             /\ objective m' = Some obj /\ _train_op m' = Some op
             /\ _sess (fitted_graph m X' optimizer sess last) = Some sess0
             /\ h = schedule_values obj op (combine ns ls) sess0
             /\ _sess m' = Some (schedule_session op (combine ns ls) sess0))
  /\ (forall (m m1 : TWPCA) (X' : ndarray float) (optimizer : Optimizer)
        (niter : number_or_iterable nat) (lr : number_or_iterable R)
        (sess : option Session) (phases : list (nat * R)),
      fit m X' optimizer niter lr sess = (m1, Ok tt) ->
      exists m2 h1 obj op sess1,
        obj_history m1 = Some h1 /\ objective m1 = Some obj
        /\ _train_op m1 = Some op /\ _sess m1 = Some sess1
        /\ train_phases m1 phases = (m2, Ok tt)
        /\ obj_history m2 = Some (h1 ++ schedule_values obj op phases sess1)
        /\ length (h1 ++ schedule_values obj op phases sess1)
           = (total_iterations niter + list_sum (map fst phases))%nat).
Proof.
  assert (Hfit : forall (m m' : TWPCA) (X' : ndarray float) (optimizer : Optimizer)
        (niter : number_or_iterable nat) (lr : number_or_iterable R)
        (sess : option Session),
      fit m X' optimizer niter lr sess = (m', Ok tt) ->
      exists h, obj_history m' = Some h /\ length h = total_iterations niter
        /\ exists ns ls last obj op sess0,
             schedule niter lr = Ok (ns, ls)
             /\ compute_last_idx (dim1 X') (map3 isfinite (data X')) = Ok last
             /\ objective m' = Some obj /\ _train_op m' = Some op
             /\ _sess (fitted_graph m X' optimizer sess last) = Some sess0
             /\ h = schedule_values obj op (combine ns ls) sess0
             /\ _sess m' = Some (schedule_session op (combine ns ls) sess0)).
  { intros m m' X' optimizer niter lr sess H.
    destruct (fit_returned _ _ _ _ _ _ _ H) as (ns & ls & last & Hs & El & T).
    pose proof (train_phases_same_graph _ _ _ _ T) as G. unfold same_graph in G.
    destruct G as (_ & _ & _ & _ & _ & _ & _ & _ & _ & _ & _ & _ & _ & _ & Go & Gt).
    destruct (objective (fitted_graph m X' optimizer sess last)) as [obj|] eqn:Eo;
      [|discriminate Eo].
    destruct (_train_op (fitted_graph m X' optimizer sess last)) as [op|] eqn:Et;
      [|discriminate Et].
    destruct (_sess (fitted_graph m X' optimizer sess last)) as [sess0|] eqn:Es;
      [|discriminate Es].
    destruct (train_phases_values _ _ _ [] obj op sess0 T eq_refl Eo Et Es)
      as (Hh & Hs').
    exists (schedule_values obj op (combine ns ls) sess0).
    split; [exact Hh|].
    split; [rewrite schedule_values_length; apply (schedule_total _ _ _ _ Hs)|].
    exists ns, ls, last, obj, op, sess0. repeat split; assumption. }
  split; [|split; [|split; [exact Hfit|]]].
  - intros m m' niter lr H.
    destruct (train_appends _ _ _ _ H) as (h & new & Hh & Hh' & L).
    exists h, new. repeat (split; [assumption|]).
    intros sess Hs.
    destruct (train_values _ _ _ _ _ H Hs) as (obj & op & h' & Ho & Ht & Hh0 & H1 & S1).
    exists obj, op. repeat (split; [assumption|]). split; [|exact S1].
    rewrite Hh0 in Hh; inversion Hh; subst h'.
    rewrite Hh' in H1; inversion H1 as [E]. apply app_inv_head in E. exact E.
  - intros phases m m' h H Hh.
    destruct (train_phases_appends _ _ _ _ H Hh) as (new & Hn & L).
    exists new. repeat (split; [assumption|]).
    intros obj op sess Ho Ht Hs.
    destruct (train_phases_values _ _ _ _ _ _ _ H Hh Ho Ht Hs) as (H1 & S1).
    split; [|exact S1].
    rewrite Hn in H1; inversion H1 as [E]. apply app_inv_head in E. exact E.
  - intros m m1 X' optimizer niter lr sess phases H.
    destruct (Hfit _ _ _ _ _ _ _ H)
      as (h & Hh & L & ns & ls & last & obj & op & sess0 & _ & _ & Ho & Ht & _ & _ & Hs1).
    destruct (train_phases_returns phases m1) as (m2 & T); try congruence.
    destruct (train_phases_values _ _ _ _ _ _ _ T Hh Ho Ht Hs1) as (H2 & _).
    exists m2, h, obj, op, (schedule_session op (combine ns ls) sess0).
    repeat (split; [assumption|]).
    rewrite length_app, schedule_values_length; lia.
Qed.

(** *** The predictor *)

(** C10: on a fitted estimator, [predict] given something that is neither
    [None] nor a numpy array binds [X_pred] on no branch, and [return X_pred]
    raises [UnboundLocalError]. *)
Theorem predict_other_unbound_local (m : TWPCA) (sess : Session) :
  _sess m = Some sess ->
  predict m X_is_other = Raise (UnboundLocalError "X_pred").
Proof. intros Hs; unfold predict; rewrite Hs; reflexivity. Qed.

(** C3: with trial factors, [predict] on a numpy array stops at line 232,
    where [self.self] raises [AttributeError]; it neither scales the warped
    time factors nor refits the neuron factors. *)
Theorem predict_trial_factors_raises (m m' : TWPCA) (X' : ndarray float)
    (optimizer : Optimizer) (niter : number_or_iterable nat)
    (lr : number_or_iterable R) (sess : option Session) (a : ndarray float) :
  fit m X' optimizer niter lr sess = (m', Ok tt) ->
  fit_trial_factors m = true ->
  predict m' (X_is_ndarray a)
  = Raise (AttributeError "'TWPCA' object has no attribute 'self'").
Proof.
  intros H Ht.
  destruct (fit_has_session _ _ _ _ _ _ _ H) as (sess' & Hs).
  destruct (fit_same_graph _ _ _ _ _ _ _ H) as (last & _ & G).
  unfold same_graph in G; simpl in G.
  repeat match goal with H : _ /\ _ |- _ => destruct H end.
  assert (Ht' : fit_trial_factors m' = true).
  { destruct (shared_length m); simpl in *; congruence. }
  unfold predict, predict_ndarray. rewrite Hs.
  destruct (shape a) as [[n_trials n_timepoints] n_neurons].
  match goal with H : _warped_time_factors m' = _ |- _ => rewrite H end.
  rewrite Ht'. reflexivity.
Qed.

(** Without trial factors, [predict] on an array whose number of trials or
    of timepoints is not the one of the warped time factors raises
    [ValueError] (lines 237-240). *)
Lemma predict_shape_mismatch_raises (m m' : TWPCA) (X' : ndarray float)
    (optimizer : Optimizer) (niter : number_or_iterable nat)
    (lr : number_or_iterable R) (sess : option Session) (a : ndarray float) :
  fit m X' optimizer niter lr sess = (m', Ok tt) ->
  fit_trial_factors m = false ->
  dim0 a <> dim0 X' \/ dim1 a <> dim1 X' ->
  exists msg, predict m' (X_is_ndarray a) = Raise (ValueError msg).
Proof.
  intros H Ht Hne.
  destruct (fit_has_session _ _ _ _ _ _ _ H) as (sess' & Hs).
  destruct (fit_same_graph _ _ _ _ _ _ _ H) as (last & _ & G).
  unfold same_graph in G; simpl in G.
  repeat match goal with H : _ /\ _ |- _ => destruct H end.
  assert (Ht' : fit_trial_factors m' = false).
  { destruct (shared_length m); simpl in *; congruence. }
  unfold predict, predict_ndarray. rewrite Hs.
  unfold dim0, dim1 in Hne.
  destruct (shape a) as [[n_trials n_timepoints] n_neurons]; simpl in Hne.
  match goal with H : _warped_time_factors m' = _ |- _ => rewrite H end.
  rewrite Ht'. unfold sess_run, dim0, dim1; simpl.
  destruct (Nat.eqb_spec (fst (fst (shape X'))) n_trials) as [E0|N0]; simpl; [|eauto].
  destruct (Nat.eqb_spec (snd (fst (shape X'))) n_timepoints) as [E1|N1]; simpl; [|eauto].
  destruct Hne; congruence.
Qed.

(** *** The last-valid index *)

Lemma argmax_from_true (l : list bool) :
  forall best_i i, argmax_from best_i true i l = best_i.
Proof. induction l as [|b l IH]; intros best_i i; simpl; auto. Qed.

Lemma argmax_from_false (l : list bool) :
  forall best_i i,
    argmax_from best_i false i l
    = match first_index (fun b : bool => b) l with
      | Some r => (i + r)%nat
      | None => best_i
      end.
Proof.
  induction l as [|b l IH]; intros best_i i; simpl; auto.
  destruct b; simpl.
  - rewrite argmax_from_true; lia.
  - rewrite IH. destruct (first_index (fun b : bool => b) l); simpl; auto; lia.
Qed.

(** [np.argmax] of booleans is the index of the first [True], and zero when
    there is none. *)
Lemma argmax_first_index (l : list bool) :
  match argmax l with Some i => i | None => O end
  = match first_index (fun b : bool => b) l with Some r => r | None => O end.
Proof.
  destruct l as [|b l]; simpl; auto.
  destruct b; simpl; [apply argmax_from_true|].
  rewrite argmax_from_false.
  destruct (first_index (fun b : bool => b) l); simpl; auto.
Qed.

Lemma first_index_map {A C} (f : A -> C) (p : C -> bool) (l : list A) :
  first_index p (map f l) = first_index (fun a => p (f a)) l.
Proof.
  induction l as [|a l IH]; simpl; auto.
  destruct (p (f a)); auto. rewrite IH; reflexivity.
Qed.

Lemma first_index_ext {A} (p q : A -> bool) (l : list A) :
  (forall a, p a = q a) -> first_index p l = first_index q l.
Proof.
  intros E; induction l as [|a l IH]; simpl; auto.
  rewrite E, IH; reflexivity.
Qed.

Lemma first_index_none {A} (p : A -> bool) (l : list A) :
  (forall a, In a l -> p a = false) -> first_index p l = None.
Proof.
  induction l as [|a l IH]; intros H; simpl; auto.
  rewrite (H a) by (left; reflexivity).
  rewrite IH; auto. intros; apply H; right; assumption.
Qed.

Lemma first_index_bound {A} (p : A -> bool) (l : list A) (r : nat) :
  first_index p l = Some r -> (r < length l)%nat.
Proof.
  revert r; induction l as [|a l IH]; intros r H; simpl in *; [discriminate|].
  destruct (p a); [inversion H; lia|].
  destruct (first_index p l) as [r'|]; simpl in H; [|discriminate].
  inversion H; subst. specialize (IH r' eq_refl); lia.
Qed.

Lemma np_all_isfinite (row : list float) :
  np_all (map isfinite row) = fully_valid row.
Proof. unfold np_all, fully_valid; induction row; simpl; auto; rewrite IHrow; auto. Qed.

(** The reversed validity mask of a trial, as line 107 computes it. *)
Lemma rev_mask_first_index (trial : list (list float)) :
  first_index (fun b : bool => b) (rev (map np_all (map (map isfinite) trial)))
  = first_index fully_valid (rev trial).
Proof.
  rewrite map_map, <- map_rev, first_index_map.
  apply first_index_ext; intros row; apply np_all_isfinite.
Qed.

Lemma compute_last_idx_spec (T : nat) (d : list (list (list float))) (last : list nat) :
  compute_last_idx T (map3 isfinite d) = Ok last ->
  T <> O /\ last = map (last_valid_index T) d.
Proof.
  unfold compute_last_idx, argmax_axis1; destruct T as [|T]; [discriminate|].
  intros H; inversion H; subst; clear H; split; [discriminate|].
  unfold map3; rewrite !map_map. apply map_ext; intros trial.
  rewrite argmax_first_index, rev_mask_first_index.
  unfold last_valid_index.
  destruct (first_index fully_valid (rev trial)); [reflexivity | lia].
Qed.

(** C6: the last-valid index [fit] stores for trial [i] is [T] minus the
    index, in the time-reversed trial, of the first timestep at which all
    channels are finite, and it is [T] for a trial that has no such
    timestep. *)
Theorem last_idx_after_fit (m m' : TWPCA) (X' : ndarray float)
    (optimizer : Optimizer) (niter : number_or_iterable nat)
    (lr : number_or_iterable R) (sess : option Session) :
  fit m X' optimizer niter lr sess = (m', Ok tt) ->
  exists last,
    last_idx m' = Some last
    /\ length last = length (data X')
    /\ forall (i : nat) (trial : list (list float)),
         nth_error (data X') i = Some trial ->
         nth_error last i = Some (last_valid_index (dim1 X') trial)
         /\ (forall r, first_index fully_valid (rev trial) = Some r ->
               nth_error last i = Some (dim1 X' - r)%nat)
         /\ ((forall row, In row trial -> fully_valid row = false) ->
               nth_error last i = Some (dim1 X')).
Proof.
  intros H.
  destruct (fit_same_graph _ _ _ _ _ _ _ H) as (last & E & G).
  apply compute_last_idx_spec in E; destruct E as [_ E].
  unfold same_graph in G; simpl in G.
  repeat match goal with H : _ /\ _ |- _ => destruct H end.
  exists last; split; [assumption|]. subst last.
  split; [apply length_map|].
  intros i trial Hi.
  assert (Hn : nth_error (map (last_valid_index (dim1 X')) (data X')) i
               = Some (last_valid_index (dim1 X') trial)).
  { rewrite nth_error_map, Hi; reflexivity. }
  split; [exact Hn|]. split.
  - intros r Hr. rewrite Hn. unfold last_valid_index; rewrite Hr; reflexivity.
  - intros Hall. rewrite Hn. unfold last_valid_index.
    rewrite first_index_none; [reflexivity|].
    intros row Hin; apply Hall, in_rev; assumption.
Qed.

(** *** The mask and the stored data *)

Lemma get3_map3 {A C} (f : A -> C) (t : list (list (list A))) (i j n : nat) :
  get3 (map3 f t) i j n = option_map f (get3 t i j n).
Proof.
  unfold get3, map3. rewrite nth_error_map.
  destruct (nth_error t i) as [ti|]; simpl; auto.
  rewrite nth_error_map.
  destruct (nth_error ti j) as [tij|]; simpl; auto.
  apply nth_error_map.
Qed.

(** C7: after [fit], the entry of the stored mask is 1 when the entry of [X]
    is finite and 0 otherwise; the entry of the stored data is the entry of
    [X] cast to float32 (line 93) and passed through [np.nan_to_num]
    (line 96): zero where [X] is NaN, the largest and the smallest finite
    float32 where it is plus and minus infinity, the entry itself where it
    is a number float32 holds, and its float32 rounding at any other finite
    entry.  A stored entry is always within the finite range, and the two
    tensors have the entries [X] has and no other. *)
Theorem mask_and_data_after_fit (m m' : TWPCA) (X' : ndarray float)
    (optimizer : Optimizer) (niter : number_or_iterable nat)
    (lr : number_or_iterable R) (sess : option Session) :
  fit m X' optimizer niter lr sess = (m', Ok tt) ->
  exists x mask,
    X m' = Some x /\ _mask m' = Some mask
    /\ forall i j n : nat,
         (forall v, get3 (data X') i j n = Some v ->
            get3 mask i j n = Some (if isfinite v then 1 else 0)
            /\ (get3 mask i j n = Some 1 <-> isfinite v = true)
            /\ get3 x i j n = Some (nan_to_num (astype_float32 v))
            /\ (v = NaN -> get3 x i j n = Some 0)
            /\ (v = PosInf -> get3 x i j n = Some FLT_MAX)
            /\ (v = NegInf -> get3 x i j n = Some (- FLT_MAX))
            /\ (forall r, v = Fin r -> float32_representable r ->
                  get3 x i j n = Some r)
            /\ (forall r, v = Fin r ->
                  get3 x i j n = Some (nan_to_num (round_float32 r)))
            /\ (forall r, get3 x i j n = Some r -> Rabs r <= FLT_MAX))
         /\ (get3 (data X') i j n = None ->
               get3 mask i j n = None /\ get3 x i j n = None).
Proof.
  intros H.
  destruct (fit_same_graph _ _ _ _ _ _ _ H) as (last & _ & G).
  unfold same_graph in G; simpl in G.
  repeat match goal with H : _ /\ _ |- _ => destruct H end.
  do 2 eexists; split; [eassumption|]; split; [eassumption|].
  intros i j n; split.
  - intros v Hv. rewrite !get3_map3, Hv; simpl.
    split; [destruct v; reflexivity|].
    split; [|split; [reflexivity|]].
    + destruct v; simpl; split; intros E; try reflexivity; try discriminate;
        inversion E; lra.
    + split; [intros ->; reflexivity|].
      split; [intros ->; reflexivity|].
      split; [intros ->; reflexivity|].
      split; [|split].
      * intros r -> Hr. simpl. rewrite (round_float32_representable r Hr). reflexivity.
      * intros r ->; reflexivity.
      * intros r E; inversion E; subst r. apply nan_to_num_astype_range.
  - intros Hn. rewrite !get3_map3, Hn; simpl; auto.
Qed.

(** C7, the entry that is not kept: [fit] on the one entry [2^24 + 1],
    which is finite, stores [2^24], its float32 rounding. *)
Lemma finite_entry_stored_rounded :
  fit example_model example_wide example_optimizer (Scalar 1%nat) (Scalar 1) None
  = (example_wide_fitted, Ok tt)
  /\ get3 (data example_wide) 0 0 0 = Some (Fin 16777217)
  /\ exists x,
       X example_wide_fitted = Some x
       /\ get3 x 0 0 0 = Some 16777216
       /\ get3 x 0 0 0 <> Some 16777217.
Proof.
  split; [reflexivity|]. split; [reflexivity|].
  eexists; split; [reflexivity|].
  unfold get3; simpl. rewrite round_float32_16777217; simpl.
  split; [reflexivity|]. intros E; inversion E; lra.
Qed.

(** *** Dictionaries *)

Lemma param_key_eqb_spec (a b : param_key) : reflect (a = b) (param_key_eqb a b).
Proof. destruct a, b; simpl; constructor; congruence. Qed.

Lemma dict_get_set_same {V} (d : dict V) (k : param_key) (v : V) :
  dict_get (dict_set d k v) k = Some v.
Proof.
  induction d as [|[k' v'] d IH]; simpl.
  - destruct (param_key_eqb_spec k k); congruence.
  - destruct (param_key_eqb_spec k' k) as [E|N]; simpl.
    + destruct (param_key_eqb_spec k' k); congruence.
    + destruct (param_key_eqb_spec k' k); congruence.
Qed.

Lemma dict_get_set_other {V} (d : dict V) (k k' : param_key) (v : V) :
  k <> k' -> dict_get (dict_set d k v) k' = dict_get d k'.
Proof.
  intros N; induction d as [|[k0 v0] d IH]; simpl.
  - destruct (param_key_eqb_spec k k'); congruence.
  - destruct (param_key_eqb_spec k0 k) as [E|N0]; simpl.
    + subst k0. destruct (param_key_eqb_spec k k'); congruence.
    + destruct (param_key_eqb_spec k0 k'); congruence.
Qed.




Lemma dict_get_map {V W} (f : V -> W) (d : dict V) (k : param_key) :
  dict_get (map (fun kv => (fst kv, f (snd kv))) d) k = option_map f (dict_get d k).
Proof.
  induction d as [|[k0 v0] d IH]; simpl; auto.
  destruct (param_key_eqb k0 k); auto.
Qed.

(** *** The positivity transform *)

Lemma softplus_pos (x : R) : 0 < softplus x.
Proof.
  unfold softplus. rewrite <- ln_1.
  apply ln_increasing; [lra|]. pose proof (exp_pos x); lra.
Qed.

Lemma softplus_nonnegative (a : matrix) : nonnegative (map_matrix softplus a).
Proof.
  unfold nonnegative, map_matrix.
  apply Forall_map, Forall_forall; intros row _.
  apply Forall_map, Forall_forall; intros v _.
  apply Rlt_le, softplus_pos.
Qed.

(** The tensors [fit] stores in [_params] for the factors. *)
Lemma params_after_fit (m m' : TWPCA) (X' : ndarray float) (optimizer : Optimizer)
    (niter : number_or_iterable nat) (lr : number_or_iterable R)
    (sess : option Session) :
  fit m X' optimizer niter lr sess = (m', Ok tt) ->
  forall key v,
    factor_of key = Some v ->
    (key = k_trial -> fit_trial_factors m = true) ->
    dict_get (_params m') key = Some (fun s => rectifier (nonneg m) (read v s)).
Proof.
  intros H key v Hk Ht.
  destruct (fit_same_graph _ _ _ _ _ _ _ H) as (last & _ & G).
  unfold same_graph in G; simpl in G.
  repeat match goal with H : _ /\ _ |- _ => destruct H end.
  match goal with H : _params m' = _ |- _ => rewrite H end.
  assert (Ef : fit_trial_factors
                 match shared_length m with
                 | Some _ => m
                 | None => set_shared_length m (Some (dim1 X'))
                 end = fit_trial_factors m) by (destruct (shared_length m); reflexivity).
  assert (Enn : nonneg
                 match shared_length m with
                 | Some _ => m
                 | None => set_shared_length m (Some (dim1 X'))
                 end = nonneg m) by (destruct (shared_length m); reflexivity).
  rewrite Ef, Enn.
  destruct key; simpl in Hk; inversion Hk; subst.
  - rewrite Ht by reflexivity. apply dict_get_set_same.
  - destruct (fit_trial_factors m);
      [rewrite dict_get_set_other by discriminate|];
      rewrite dict_get_set_other by discriminate; apply dict_get_set_same.
  - destruct (fit_trial_factors m);
      [rewrite dict_get_set_other by discriminate|]; apply dict_get_set_same.
Qed.

(** C9: after [fit] and any further training, the tensor [_params] holds
    for a factor, which the prediction, the regularization and the
    [params] snapshot read, is at every value of the variables the softplus
    of the raw parameter, entry by entry, and so nonnegative, when
    [nonneg] is set; and it is the raw parameter when it is not. *)
Theorem effective_factors_after_fit (m m' m'' : TWPCA) (X' : ndarray float)
    (optimizer : Optimizer) (niter : number_or_iterable nat)
    (lr : number_or_iterable R) (sess : option Session)
    (phases : list (nat * R)) :
  fit m X' optimizer niter lr sess = (m', Ok tt) ->
  train_phases m' phases = (m'', Ok tt) ->
  forall key v,
    factor_of key = Some v ->
    (key = k_trial -> fit_trial_factors m = true) ->
    exists t,
      dict_get (_params m'') key = Some t
      /\ (forall s : store,
            (nonneg m'' = true ->
               t s = map_matrix softplus (read v s) /\ nonnegative (t s))
            /\ (nonneg m'' = false -> t s = read v s))
      /\ exists sess'' snapshot,
           _sess m'' = Some sess''
           /\ params m'' = Ok snapshot
           /\ dict_get snapshot key = Some (t (vars sess'')).
Proof.
  intros H T key v Hk Ht.
  pose proof (params_after_fit _ _ _ _ _ _ _ H key v Hk Ht) as P.
  pose proof (train_phases_same_graph _ _ _ _ T) as G.
  destruct (fit_same_graph _ _ _ _ _ _ _ H) as (last & _ & G').
  assert (Hn : nonneg m'' = nonneg m).
  { unfold same_graph in G, G'; simpl in G'.
    repeat match goal with H : _ /\ _ |- _ => destruct H end.
    destruct (shared_length m); simpl in *; congruence. }
  assert (Hp : _params m'' = _params m').
  { unfold same_graph in G. repeat match goal with H : _ /\ _ |- _ => destruct H end.
    assumption. }
  destruct (fit_has_session _ _ _ _ _ _ _ H) as (sess' & Hs').
  assert (Hs : _sess m'' <> None).
  { eapply train_phases_keeps_session; eauto. congruence. }
  destruct (_sess m'') as [sess''|] eqn:Es; [|congruence].
  eexists; split; [rewrite Hp; exact P|]. split.
  - intros s; rewrite Hn; split; intros E; rewrite E; simpl;
      [split; [reflexivity | apply softplus_nonnegative] | reflexivity].
  - exists sess''. unfold params; rewrite Es. eexists; split; [reflexivity|].
    split; [reflexivity|]. rewrite dict_get_map, Hp, P; reflexivity.
Qed.

(** *** The graph [fit] builds *)

(** The attributes of the graph, in terms of the effective factors. *)
Lemma fitted_graph_attributes (m : TWPCA) (X' : ndarray float)
    (optimizer : Optimizer) (sess : option Session) (last : list nat) :
  let g := fitted_graph m X' optimizer sess last in
  let eff := fun (v : variable) (s : store) => rectifier (nonneg m) (read v s) in
  exists t_warp wtf pred cost obj,
    dict_get (_params g) k_warp = Some t_warp
    /\ _warped_time_factors g = Some wtf
    /\ X_pred g = Some pred
    /\ recon_cost g = Some cost
    /\ objective g = Some obj
    /\ _mask g = Some (map3 bool_to_float32 (map3 isfinite (data X')))
    /\ X g = Some (map3 nan_to_num (data (np_astype_float32 X')))
    /\ _num_datapoints g = Some (np_sum_bool (map3 isfinite (data X')))
    /\ n_components g = n_components m
    /\ fit_trial_factors g = fit_trial_factors m
    /\ nonneg g = nonneg m
    /\ _regularizers g = _regularizers m
    /\ forall s : store,
         shape (wtf s) = (dim0 X', dim1 X', n_components m)
         /\ data (wtf s) = warp (tile (eff time_var s) (dim0 X')) (t_warp s)
         /\ pred s = (if fit_trial_factors m
                      then einsum_ik_ijk_nk (eff trial_var s) (data (wtf s))
                             (eff neuron_var s)
                      else einsum_ijk_nk (data (wtf s)) (eff neuron_var s))
         /\ cost s = recon_cost_of (map3 bool_to_float32 (map3 isfinite (data X')))
                       pred (map3 nan_to_num (data (np_astype_float32 X')))
                       (np_sum_bool (map3 isfinite (data X'))) s
         /\ obj s = fadd (cost s)
                      (float32_of_exact
                         (regularization_of (_regularizers m) (_params g) s)).
Proof.
  unfold fitted_graph, build_model.
  destruct (shared_length m) as [n|]; simpl;
    destruct (fit_trial_factors m); simpl;
    do 5 eexists;
    (split; [repeat rewrite dict_get_set_other by discriminate;
             apply dict_get_set_same|]);
    repeat (split; [reflexivity|]); reflexivity.
Qed.

(** *** The prediction *)

Lemma sum_over_S (K : nat) (f : nat -> R) :
  sum_over (S K) f = f O + sum_over K (fun k => f (S k)).
Proof.
  unfold sum_over; simpl. rewrite <- seq_shift, map_map; reflexivity.
Qed.

Lemma sum_over_zero (K : nat) (f : nat -> R) :
  (forall k, f k = 0) -> sum_over K f = 0.
Proof.
  revert f; induction K as [|K IH]; intros f H; [reflexivity|].
  rewrite sum_over_S, H, IH by (intros; apply H); lra.
Qed.

Lemma sum_over_ext (K : nat) (f g : nat -> R) :
  (forall k, f k = g k) -> sum_over K f = sum_over K g.
Proof.
  intros H; unfold sum_over; f_equal; apply map_ext; intros; apply H.
Qed.

Lemma nth_zipWith_Rmult (a b : list R) :
  forall k, nth k (zipWith Rmult a b) 0 = nth k a 0 * nth k b 0.
Proof.
  revert b; induction a as [|x a IH]; intros b k.
  - simpl; destruct k; lra.
  - destruct b as [|y b]; simpl.
    + destruct k; simpl; lra.
    + destruct k; simpl; [reflexivity | apply IH].
Qed.

(** The contraction over the component index. *)
Lemma dot_sum_over (v : list R) :
  forall (u : list R) (K : nat),
    length v = K -> dot u v = sum_over K (fun k => nth k u 0 * nth k v 0).
Proof.
  unfold dot; induction v as [|b v IH]; intros u K L; simpl in L; subst K.
  - destruct u; reflexivity.
  - rewrite sum_over_S. destruct u as [|a u]; simpl.
    + rewrite sum_over_zero by (intros k; destruct k; lra). lra.
    + rewrite (IH u (length v) eq_refl); reflexivity.
Qed.

Lemma nth_error_zipWith {A C D} (f : A -> C -> D) (a : list A) (b : list C) :
  forall i x y,
    nth_error a i = Some x -> nth_error b i = Some y ->
    nth_error (zipWith f a b) i = Some (f x y).
Proof.
  revert b; induction a as [|x0 a IH]; intros b i x y Ha Hb.
  - destruct i; discriminate.
  - destruct b as [|y0 b]; [destruct i; discriminate|].
    destruct i; simpl in *; [congruence | eapply IH; eauto].
Qed.

Lemma nth_error_in_range {A} (l : list A) (i : nat) (d : A) :
  (i < length l)%nat -> nth_error l i = Some (nth i l d).
Proof. intros H; apply nth_error_nth'; assumption. Qed.

(** An entry of [einsum('ijk,nk->ijn')]. *)
Lemma einsum_ijk_nk_entry (W : tensor3) (N : matrix) (K i j n : nat) :
  Forall (fun row => length row = K) N ->
  (i < length W)%nat -> (j < length (nth i W []))%nat -> (n < length N)%nat ->
  get3 (einsum_ijk_nk W N) i j n
  = Some (sum_over K (fun k => entry3 W i j k * entry2 N n k)).
Proof.
  intros HK Hi Hj Hn. unfold get3, einsum_ijk_nk.
  rewrite nth_error_map, (nth_error_in_range W i []) by assumption; simpl.
  rewrite nth_error_map, (nth_error_in_range _ j []) by assumption; simpl.
  rewrite nth_error_map, (nth_error_in_range N n []) by assumption; simpl.
  f_equal. apply dot_sum_over.
  rewrite Forall_forall in HK; apply HK, nth_In; assumption.
Qed.

(** An entry of [einsum('ik,ijk,nk->ijn')]. *)
Lemma einsum_ik_ijk_nk_entry (T : matrix) (W : tensor3) (N : matrix) (K i j n : nat) :
  Forall (fun row => length row = K) N ->
  (i < length T)%nat ->
  (i < length W)%nat -> (j < length (nth i W []))%nat -> (n < length N)%nat ->
  get3 (einsum_ik_ijk_nk T W N) i j n
  = Some (sum_over K (fun k => entry2 T i k * entry3 W i j k * entry2 N n k)).
Proof.
  intros HK Ht Hi Hj Hn. unfold get3, einsum_ik_ijk_nk.
  rewrite (nth_error_zipWith _ T W i (nth i T []) (nth i W []))
    by (apply nth_error_in_range; assumption).
  rewrite nth_error_map, (nth_error_in_range _ j []) by assumption; simpl.
  rewrite nth_error_map, (nth_error_in_range N n []) by assumption; simpl.
  f_equal. rewrite (dot_sum_over _ _ K).
  - apply sum_over_ext; intros k. rewrite nth_zipWith_Rmult; reflexivity.
  - rewrite Forall_forall in HK; apply HK, nth_In; assumption.
Qed.

(** A trial of the warped time factors. *)
Lemma warp_tile_trial (a : matrix) (warps : matrix) (n i : nat) (wi : list R) :
  (i < n)%nat -> nth_error warps i = Some wi ->
  nth_error (warp (tile a n) warps) i = Some (warp_trial a wi).
Proof.
  intros Hi Hw. unfold warp, tile.
  apply nth_error_zipWith; [apply nth_error_repeat; assumption | assumption].
Qed.

(** C2: the entry [(i, j, n)] of the predicted tensor is the sum over the
    components [k] of [warped_time_factors[i,j,k] * neuron_factors[n,k]]
    without trial factors, and of
    [trial_factors[i,k] * warped_time_factors[i,j,k] * neuron_factors[n,k]]
    with them, where the warped time factors are [warp.warp] of the
    effective time-factor matrix, tiled once per trial, and of the warps:
    trial [i] is that matrix mapped through the warp of trial [i]. *)
Theorem prediction_after_fit (m m' : TWPCA) (X' : ndarray float)
    (optimizer : Optimizer) (niter : number_or_iterable nat)
    (lr : number_or_iterable R) (sess : option Session) :
  fit m X' optimizer niter lr sess = (m', Ok tt) ->
  exists pred wtf t_time t_neuron t_warp,
    X_pred m' = Some pred
    /\ _warped_time_factors m' = Some wtf
    /\ dict_get (_params m') k_time = Some t_time
    /\ dict_get (_params m') k_neuron = Some t_neuron
    /\ dict_get (_params m') k_warp = Some t_warp
    /\ forall s : store,
         data (wtf s) = warp (tile (t_time s) (dim0 X')) (t_warp s)
         /\ (forall i wi,
             (i < dim0 X')%nat -> nth_error (t_warp s) i = Some wi ->
             nth_error (data (wtf s)) i = Some (warp_trial (t_time s) wi))
         /\ (Forall (fun row => length row = n_components m') (t_neuron s) ->
             forall i j n : nat,
               (i < length (data (wtf s)))%nat ->
               (j < length (nth i (data (wtf s)) []))%nat ->
               (n < length (t_neuron s))%nat ->
               (fit_trial_factors m' = false ->
                  get3 (pred s) i j n
                  = Some (sum_over (n_components m')
                            (fun k => entry3 (data (wtf s)) i j k
                                      * entry2 (t_neuron s) n k)))
               /\ (fit_trial_factors m' = true ->
                   exists t_trial,
                     dict_get (_params m') k_trial = Some t_trial
                     /\ ((i < length (t_trial s))%nat ->
                         get3 (pred s) i j n
                         = Some (sum_over (n_components m')
                                   (fun k => entry2 (t_trial s) i k
                                             * entry3 (data (wtf s)) i j k
                                             * entry2 (t_neuron s) n k))))).
Proof.
  intros H.
  pose proof (params_after_fit _ _ _ _ _ _ _ H) as P.
  destruct (fit_same_graph _ _ _ _ _ _ _ H) as (last & _ & G).
  destruct (fitted_graph_attributes m X' optimizer sess last)
    as (t_warp & wtf & pred & cost & obj & A).
  cbv zeta in A.
  destruct A as (Aw & Awtf & Apred & _ & _ & _ & _ & _ & AK & Aft & _ & _ & A).
  unfold same_graph in G.
  destruct G as (GK & _ & Gft & _ & _ & _ & Gp & _ & _ & _ & _ & Gwtf & Gpred & _).
  exists pred, wtf, (fun s => rectifier (nonneg m) (read time_var s)),
    (fun s => rectifier (nonneg m) (read neuron_var s)), t_warp.
  split; [congruence|]. split; [congruence|].
  split; [apply (P k_time); [reflexivity | discriminate]|].
  split; [apply (P k_neuron); [reflexivity | discriminate]|].
  split; [rewrite Gp; exact Aw|].
  intros s. destruct (A s) as (_ & Ad & Ap & _).
  split; [exact Ad|]. split.
  - intros i wi Hi Hw. rewrite Ad. apply warp_tile_trial; assumption.
  - intros HK i j n Hi Hj Hn.
    assert (EK : n_components m' = n_components m) by congruence.
    assert (Eft : fit_trial_factors m' = fit_trial_factors m) by congruence.
    rewrite EK in *. rewrite Eft. split; intros Ef.
    + rewrite Ap, Ef. apply einsum_ijk_nk_entry; assumption.
    + eexists; split; [apply (P k_trial); [reflexivity | intros _; exact Ef]|].
      intros Ht. rewrite Ap, Ef. apply einsum_ik_ijk_nk_entry; assumption.
Qed.

(** *** The objective *)

Lemma sum_list_app (a b : list R) : sum_list (a ++ b) = sum_list a + sum_list b.
Proof. unfold sum_list; induction a; simpl; lra. Qed.

(** One row: multiplying by a mask of zeros and ones keeps the entries
    whose mask value is one. *)
Lemma masked_row (mk : list bool) :
  forall p x : list R,
    sum_list (zipWith Rmult (map bool_to_float32 mk)
                (map (fun d => d ^ 2) (zipWith Rminus p x)))
    = sum_list (map squared_difference
                  (filter mask_is_one
                     (zipWith pair (map bool_to_float32 mk) (zipWith pair p x)))).
Proof.
  induction mk as [|b mk IH]; intros p x; [reflexivity|].
  destruct p as [|a p]; [reflexivity|].
  destruct x as [|c x]; [reflexivity|].
  specialize (IH p x). unfold sum_list in *.
  cbn [map zipWith fold_right filter]. rewrite IH.
  set (rest := filter mask_is_one _).
  unfold mask_is_one; cbn [fst].
  destruct b; cbn [bool_to_float32].
  - destruct (Req_dec_T 1 1) as [_|N]; [|contradiction N; reflexivity].
    cbn [map fold_right]. unfold squared_difference; cbn [fst snd]. lra.
  - destruct (Req_dec_T 0 1) as [E|_]; [lra|]. lra.
Qed.

Lemma masked_matrix (mk : list (list bool)) :
  forall p x : matrix,
    sum_list (map sum_list
                (zipWith (zipWith Rmult) (map (map bool_to_float32) mk)
                   (map (map (fun d => d ^ 2)) (zipWith (zipWith Rminus) p x))))
    = sum_list (map squared_difference
                  (filter mask_is_one
                     (concat (zipWith (zipWith pair) (map (map bool_to_float32) mk)
                                (zipWith (zipWith pair) p x))))).
Proof.
  induction mk as [|r mk IH]; intros p x; [reflexivity|].
  destruct p as [|pr p]; [reflexivity|].
  destruct x as [|xr x]; [reflexivity|].
  simpl. rewrite filter_app, map_app, sum_list_app, <- IH, <- masked_row.
  reflexivity.
Qed.

(** The masked sum of squares of line 143 is the sum over the entries whose
    mask value is 1. *)
Lemma masked_tensor (mk : list (list (list bool))) :
  forall p x : tensor3,
    reduce_sum (zipWith3d Rmult (map3 bool_to_float32 mk)
                  (map3 (fun d => d ^ 2) (zipWith3d Rminus p x)))
    = masked_squared_error (map3 bool_to_float32 mk) p x.
Proof.
  unfold reduce_sum, masked_squared_error, entries, zipWith3d, map3.
  induction mk as [|t mk IH]; intros p x; [reflexivity|].
  destruct p as [|pt p]; [reflexivity|].
  destruct x as [|xt x]; [reflexivity|].
  simpl. rewrite concat_app, filter_app, map_app, sum_list_app, <- IH.
  rewrite <- masked_matrix. reflexivity.
Qed.

(** float32 arithmetic within the finite range is the arithmetic of the
    numbers. *)
Lemma FLT_MAX_ge_1 : 1 <= FLT_MAX.
Proof. rewrite FLT_MAX_value. lra. Qed.

Lemma float32_of_exact_in_range (r : R) :
  Rabs r <= FLT_MAX -> float32_of_exact r = Fin r.
Proof.
  intros H. unfold float32_of_exact.
  assert (H' : - FLT_MAX <= r <= FLT_MAX)
    by (unfold Rabs in H; destruct (Rcase_abs r); lra).
  destruct (Rlt_dec FLT_MAX r); [lra|].
  destruct (Rlt_dec r (- FLT_MAX)); [lra | reflexivity].
Qed.

Lemma float32_of_exact_nonneg (r : R) :
  0 <= r <= FLT_MAX -> float32_of_exact r = Fin r.
Proof. intros H. apply float32_of_exact_in_range. rewrite Rabs_pos_eq; lra. Qed.


Lemma float32_of_exact_not_negative (r : R) :
  0 <= r -> not_negative (float32_of_exact r).
Proof.
  intros H. pose proof FLT_MAX_ge_1. unfold float32_of_exact.
  destruct (Rlt_dec FLT_MAX r); [exact I|].
  destruct (Rlt_dec r (- FLT_MAX)); [lra | exact H].
Qed.

Lemma square_in_range (d : R) : d ^ 2 <= FLT_MAX -> Rabs d <= FLT_MAX.
Proof.
  intros H. pose proof FLT_MAX_ge_1 as H1.
  destruct (Rle_dec (Rabs d) FLT_MAX) as [L|L]; [exact L|].
  exfalso. apply L. clear L.
  assert (E : d ^ 2 = Rabs d * Rabs d)
    by (unfold Rabs; destruct (Rcase_abs d); ring).
  pose proof (Rabs_pos d) as Hp.
  destruct (Rle_dec (Rabs d) 1) as [L1|L1]; [lra|].
  assert (Rabs d * 1 <= Rabs d * Rabs d)
    by (apply Rmult_le_compat_l; lra).
  lra.
Qed.

(** One entry of line 143. *)
Lemma float_masked_entry (b : bool) (a c : R) :
  Rabs a <= FLT_MAX -> (a - c) ^ 2 <= FLT_MAX ->
  fmul (Fin (bool_to_float32 b))
    (fmul (fsub (float32_of_exact a) (Fin c)) (fsub (float32_of_exact a) (Fin c)))
  = Fin (bool_to_float32 b * (a - c) ^ 2).
Proof.
  intros Ha Hs.
  rewrite (float32_of_exact_in_range a Ha).
  unfold fsub, fneg, fadd.
  replace (a + - c) with (a - c) by ring.
  rewrite (float32_of_exact_in_range (a - c) (square_in_range _ Hs)).
  unfold fmul.
  replace ((a - c) * (a - c)) with ((a - c) ^ 2) by ring.
  pose proof (pow2_ge_0 (a - c)) as Hp.
  rewrite (float32_of_exact_nonneg ((a - c) ^ 2)) by lra.
  rewrite float32_of_exact_nonneg; [reflexivity|].
  destruct b; simpl bool_to_float32; lra.
Qed.


Lemma float_masked_row (mk : list bool) :
  forall p x : list R,
    Forall entry_in_range
      (zipWith pair (map bool_to_float32 mk) (zipWith pair p x)) ->
    zipWith fmul (map Fin (map bool_to_float32 mk))
      (map (fun d => fmul d d) (zipWith fsub (map float32_of_exact p) (map Fin x)))
    = map Fin (zipWith Rmult (map bool_to_float32 mk)
                 (map (fun d => d ^ 2) (zipWith Rminus p x))).
Proof.
  induction mk as [|b mk IH]; intros p x H; [reflexivity|].
  destruct p as [|a p]; [reflexivity|].
  destruct x as [|c x]; [reflexivity|].
  cbn [map zipWith] in *. inversion H as [|? ? [Ha Hs] Hrest]; subst.
  unfold squared_difference in Hs; cbn [fst snd] in Ha, Hs.
  rewrite (IH p x Hrest), (float_masked_entry b a c Ha Hs). reflexivity.
Qed.

Lemma float_masked_matrix (mk : list (list bool)) :
  forall p x : matrix,
    Forall entry_in_range
      (concat (zipWith (zipWith pair) (map (map bool_to_float32) mk)
                 (zipWith (zipWith pair) p x))) ->
    zipWith (zipWith fmul) (map (map Fin) (map (map bool_to_float32) mk))
      (map (map (fun d => fmul d d))
         (zipWith (zipWith fsub) (map (map float32_of_exact) p) (map (map Fin) x)))
    = map (map Fin)
        (zipWith (zipWith Rmult) (map (map bool_to_float32) mk)
           (map (map (fun d => d ^ 2)) (zipWith (zipWith Rminus) p x))).
Proof.
  induction mk as [|r mk IH]; intros p x H; [reflexivity|].
  destruct p as [|pr p]; [reflexivity|].
  destruct x as [|xr x]; [reflexivity|].
  cbn [map zipWith concat] in *. apply Forall_app in H. destruct H as [H1 H2].
  rewrite (IH p x H2), (float_masked_row r pr xr H1). reflexivity.
Qed.

(** The tensor line 143 sums, when every entry is within the range. *)
Lemma float_masked_tensor (mk : list (list (list bool))) :
  forall p x : tensor3,
    Forall entry_in_range (entries (map3 bool_to_float32 mk) p x) ->
    zipWith3d fmul (map3 Fin (map3 bool_to_float32 mk))
      (map3 (fun d => fmul d d)
         (zipWith3d fsub (map3 float32_of_exact p) (map3 Fin x)))
    = map3 Fin
        (zipWith3d Rmult (map3 bool_to_float32 mk)
           (map3 (fun d => d ^ 2) (zipWith3d Rminus p x))).
Proof.
  unfold entries, zipWith3d, map3.
  induction mk as [|t mk IH]; intros p x H; [reflexivity|].
  destruct p as [|pt p]; [reflexivity|].
  destruct x as [|xt x]; [reflexivity|].
  cbn [map zipWith concat] in *. rewrite concat_app in H.
  apply Forall_app in H. destruct H as [H1 H2].
  rewrite (IH p x H2), (float_masked_matrix t pt xt H1). reflexivity.
Qed.

Lemma Forall_zipWith {A C D} (P : A -> Prop) (Q : C -> Prop) (T : D -> Prop)
    (f : A -> C -> D) :
  (forall a c, P a -> Q c -> T (f a c)) ->
  forall la lc, Forall P la -> Forall Q lc -> Forall T (zipWith f la lc).
Proof.
  intros Hf la. induction la as [|a la IH]; intros lc Ha Hc; [constructor|].
  destruct lc as [|c lc]; [constructor|].
  inversion Ha; inversion Hc; subst. simpl. constructor; auto.
Qed.

Lemma Forall_map_all {A C} (P : C -> Prop) (f : A -> C) (l : list A) :
  (forall a, P (f a)) -> Forall P (map f l).
Proof. intros H. apply Forall_map, Forall_forall. intros a _. apply H. Qed.

(** The terms of the masked sum are not negative. *)
Lemma masked_terms_nonneg (mk : list (list (list bool))) (p x : tensor3) :
  Forall (Forall (Forall (fun v => 0 <= v)))
    (zipWith3d Rmult (map3 bool_to_float32 mk)
       (map3 (fun d => d ^ 2) (zipWith3d Rminus p x))).
Proof.
  unfold zipWith3d, map3.
  apply (Forall_zipWith (Forall (Forall (fun v => 0 <= v)))
           (Forall (Forall (fun v => 0 <= v)))).
  - apply (Forall_zipWith (Forall (fun v => 0 <= v)) (Forall (fun v => 0 <= v))).
    apply (Forall_zipWith (fun v => 0 <= v) (fun v => 0 <= v)).
    intros a c Ha Hc. apply Rmult_le_pos; assumption.
  - do 2 (apply Forall_map_all; intros ?). apply Forall_map_all.
    intros b; destruct b; simpl; lra.
  - do 2 (apply Forall_map_all; intros ?). apply Forall_map_all.
    intros d. apply pow2_ge_0.
Qed.

(** A float32 sum of terms that are not negative, when the sum of the
    numbers is within the range. *)
Lemma fsum_list_map {A} (g : A -> float) (h : A -> R) (l : list A) :
  (forall a, In a l -> 0 <= h a /\ (h a <= FLT_MAX -> g a = Fin (h a))) ->
  sum_list (map h l) <= FLT_MAX ->
  fsum_list (map g l) = Fin (sum_list (map h l)) /\ 0 <= sum_list (map h l).
Proof.
  unfold fsum_list, sum_list.
  induction l as [|a l IH]; intros H Hs; simpl in *; [split; [reflexivity | lra]|].
  destruct (H a (or_introl eq_refl)) as [Ha Hg].
  assert (Hl : 0 <= fold_right Rplus 0 (map h l)).
  { clear - H. induction l as [|b l IH]; simpl; [lra|].
    destruct (H b (or_intror (or_introl eq_refl))) as [Hb _].
    assert (0 <= fold_right Rplus 0 (map h l)); [|lra].
    apply IH. intros c [Hc|Hc]; apply H; [left | right; right]; assumption. }
  destruct (IH (fun c Hc => H c (or_intror Hc)) ltac:(lra)) as [E _].
  rewrite E, Hg by lra. simpl.
  split; [apply float32_of_exact_nonneg; lra | lra].
Qed.

Lemma freduce_sum_Fin (t : tensor3) :
  Forall (Forall (Forall (fun v => 0 <= v))) t ->
  reduce_sum t <= FLT_MAX ->
  freduce_sum (map3 Fin t) = Fin (reduce_sum t).
Proof.
  intros Hn Hs. unfold freduce_sum, reduce_sum, map3 in *.
  rewrite map_map.
  apply (fsum_list_map _ (fun ti => sum_list (map sum_list ti))); [|exact Hs].
  intros ti Hti. rewrite Forall_forall in Hn. specialize (Hn ti Hti).
  assert (G : (sum_list (map sum_list ti) <= FLT_MAX ->
               fsum_list (map fsum_list (map (map Fin) ti))
               = Fin (sum_list (map sum_list ti)))
              /\ 0 <= sum_list (map sum_list ti)).
  { assert (K : forall row, In row ti ->
                 0 <= sum_list row
                 /\ (sum_list row <= FLT_MAX -> fsum_list (map Fin row) = Fin (sum_list row))).
    { intros row Hrow. rewrite Forall_forall in Hn. specialize (Hn row Hrow).
      assert (R0 : forall v, In v row ->
                     0 <= (fun v : R => v) v
                     /\ ((fun v : R => v) v <= FLT_MAX -> Fin v = Fin ((fun v : R => v) v))).
      { intros v Hv. rewrite Forall_forall in Hn. split; [apply Hn, Hv | reflexivity]. }
      split.
      - clear - Hn. unfold sum_list. induction Hn; simpl; lra.
      - intros Hb.
        destruct (fsum_list_map Fin (fun v : R => v) row R0) as [E _];
          [rewrite map_id; exact Hb|].
        rewrite map_id in E. exact E. }
    split.
    - intros Hb. rewrite map_map.
      destruct (fsum_list_map (fun row => fsum_list (map Fin row)) sum_list ti K Hb)
        as [E _]. exact E.
    - clear - K. unfold sum_list at 1. induction ti as [|row ti IH]; simpl; [lra|].
      destruct (K row (or_introl eq_refl)) as [Hr _].
      assert (0 <= fold_right Rplus 0 (map sum_list ti)); [|lra].
      apply IH. intros r Hr'. apply K. right; assumption. }
  destruct G as [G1 G2]. split; [exact G2 | exact G1].
Qed.

(** Line 143 on a state where every entry is within the range, the masked
    sum too, and the mask has an entry that is 1. *)
Lemma recon_cost_in_range (mk : list (list (list bool))) (pred : tensor tensor3)
    (x : tensor3) (num : nat) (s : store) :
  Forall entry_in_range (entries (map3 bool_to_float32 mk) (pred s) x) ->
  masked_squared_error (map3 bool_to_float32 mk) (pred s) x <= FLT_MAX ->
  (0 < num)%nat ->
  recon_cost_of (map3 bool_to_float32 mk) pred x num s
  = Fin (masked_squared_error (map3 bool_to_float32 mk) (pred s) x / INR num).
Proof.
  intros He Hs Hn. unfold recon_cost_of.
  rewrite (float_masked_tensor mk (pred s) x He).
  rewrite freduce_sum_Fin;
    [|apply masked_terms_nonneg | rewrite masked_tensor; exact Hs].
  rewrite masked_tensor.
  destruct num as [|k]; [lia | reflexivity].
Qed.








(** *** [predict] before [fit], and on the training data *)

(** Before any [fit] the estimator has no session, and [predict] raises the
    [ValueError] of line 222 whatever it is given. *)
Lemma predict_before_fit_raises (m : TWPCA) (arg : predict_argument) :
  _sess m = None ->
  predict m arg
  = Raise (ValueError
      "No model has been fit - must call TWPCA.fit() before TWPCA.predict().").
Proof. intros Hs; unfold predict; rewrite Hs; reflexivity. Qed.

(** [predict()] with no argument is the prediction tensor at the variables
    of the session. *)
Lemma predict_None_reconstructs (m m' : TWPCA) (X' : ndarray float)
    (optimizer : Optimizer) (niter : number_or_iterable nat)
    (lr : number_or_iterable R) (sess : option Session) :
  fit m X' optimizer niter lr sess = (m', Ok tt) ->
  exists sess' pred,
    _sess m' = Some sess' /\ X_pred m' = Some pred
    /\ predict m' X_is_None = Ok (pred (vars sess')).
Proof.
  intros H.
  destruct (fit_has_session _ _ _ _ _ _ _ H) as (sess' & Hs).
  destruct (fit_same_graph _ _ _ _ _ _ _ H) as (last & _ & G).
  destruct (fitted_graph_attributes m X' optimizer sess last)
    as (t_warp & wtf & pred & cost & obj & A).
  cbv zeta in A. destruct A as (_ & _ & Apred & _).
  unfold same_graph in G.
  destruct G as (_ & _ & _ & _ & _ & _ & _ & _ & _ & _ & _ & _ & Gpred & _).
  exists sess', pred. split; [exact Hs|].
  assert (Ep : X_pred m' = Some pred) by (rewrite Gpred; exact Apred).
  split; [exact Ep|]. unfold predict; rewrite Hs, Ep; reflexivity.
Qed.

End Properties.

(** ** The properties on the small instance *)

Example example_arrays_well_formed :
  wf_ndarray example_X = true /\ wf_ndarray example_held_out = true.
Proof. split; reflexivity. Qed.

(** C8: the fitted example has one trial and the held-out array two, and
    [predict], with trial factors, raises the [AttributeError] of line 232
    before it reaches the checks of lines 237-240. *)
Theorem predict_shape_mismatch_with_trial_factors :
  dim0 example_held_out = 2%nat
  /\ dim0 example_X = 1%nat
  /\ fit_trial_factors example_trial_fitted = true
  /\ predict example_trial_fitted (X_is_ndarray example_held_out)
     = Raise (AttributeError "'TWPCA' object has no attribute 'self'").
Proof. repeat split. Qed.

(** The same array on the example fitted without trial factors: the check
    of line 237 raises. *)
Example predict_shape_mismatch_without_trial_factors :
  predict example_fitted (X_is_ndarray example_held_out)
  = Raise (ValueError "Data does not have the expected number of trials.").
Proof. reflexivity. Qed.

Lemma fit_schedule_mismatch_raises_witness :
  schedule_mismatch (Iterable [1%nat; 2%nat]) (Iterable [1])
  /\ exists msg m',
       fit example_model example_X example_optimizer
         (Iterable [1%nat; 2%nat]) (Iterable [1]) None
       = (m', Raise (ValueError msg))
       /\ obj_history m' = obj_history example_model.
Proof.
  assert (H : schedule_mismatch (Iterable [1%nat; 2%nat]) (Iterable [1]))
    by (simpl; discriminate).
  split; [exact H|].
  destruct (fit_schedule_mismatch_raises example_model example_X example_optimizer
              (Iterable [1%nat; 2%nat]) (Iterable [1]) None H)
    as (msg & m' & E & Hh & _).
  exists msg, m'; split; assumption.
Defined.

Lemma predict_other_unbound_local_witness :
  exists sess,
    _sess example_fitted = Some sess
    /\ predict example_fitted X_is_other = Raise (UnboundLocalError "X_pred").
Proof.
  eexists; split; [reflexivity|].
  eapply predict_other_unbound_local; reflexivity.
Defined.

Lemma predict_trial_factors_raises_witness :
  fit example_trial_model example_X example_optimizer (Scalar 2%nat) (Scalar 1) None
  = (example_trial_fitted, Ok tt)
  /\ fit_trial_factors example_trial_model = true
  /\ predict example_trial_fitted (X_is_ndarray example_X)
     = Raise (AttributeError "'TWPCA' object has no attribute 'self'").
Proof.
  split; [reflexivity|]. split; [reflexivity|].
  apply (predict_trial_factors_raises example_trial_model example_trial_fitted
           example_X example_optimizer (Scalar 2%nat) (Scalar 1) None example_X);
    reflexivity.
Defined.

Lemma last_idx_after_fit_witness :
  fit example_model example_X example_optimizer (Scalar 2%nat) (Scalar 1) None
  = (example_fitted, Ok tt)
  /\ exists last,
       last_idx example_fitted = Some last
       /\ nth_error last 0 = Some 1%nat.
Proof.
  split; [reflexivity|].
  destruct (last_idx_after_fit example_model example_fitted example_X
              example_optimizer (Scalar 2%nat) (Scalar 1) None eq_refl)
    as (last & Hl & _ & Hi).
  exists last; split; [exact Hl|].
  destruct (Hi O [[Fin 3]; [NaN]] eq_refl) as (_ & Hr & _).
  exact (Hr 1%nat eq_refl).
Defined.

Lemma mask_and_data_after_fit_witness :
  fit example_model example_X example_optimizer (Scalar 2%nat) (Scalar 1) None
  = (example_fitted, Ok tt)
  /\ exists x mask,
       X example_fitted = Some x /\ _mask example_fitted = Some mask
       /\ get3 mask 0 0 0 = Some 1 /\ get3 x 0 0 0 = Some 3
       /\ get3 mask 0 1 0 = Some 0 /\ get3 x 0 1 0 = Some 0.
Proof.
  split; [reflexivity|].
  destruct (mask_and_data_after_fit example_model example_fitted example_X
              example_optimizer (Scalar 2%nat) (Scalar 1) None eq_refl)
    as (x & mask & Hx & Hm & Hall).
  exists x, mask; split; [exact Hx|]. split; [exact Hm|].
  destruct (Hall O O O) as (H0 & _).
  destruct (H0 (Fin 3) eq_refl) as (Hm0 & _ & _ & _ & _ & _ & Hx0 & _).
  destruct (Hall O 1%nat O) as (H1 & _).
  destruct (H1 NaN eq_refl) as (Hm1 & _ & _ & Hx1 & _).
  split; [exact Hm0|].
  split; [exact (Hx0 3 eq_refl (small_integer_representable 3 ltac:(simpl; lia)))|].
  split; [exact Hm1 | exact (Hx1 eq_refl)].
Defined.

Lemma effective_factors_after_fit_witness :
  fit example_trial_model example_X example_optimizer (Scalar 2%nat) (Scalar 1) None
  = (example_trial_fitted, Ok tt)
  /\ train_phases example_trial_fitted [(3%nat, 1)] = (example_trial_trained, Ok tt)
  /\ exists t,
       dict_get (_params example_trial_trained) k_trial = Some t
       /\ forall s, t s = map_matrix softplus (read trial_var s) /\ nonnegative (t s).
Proof.
  split; [reflexivity|]. split; [reflexivity|].
  destruct (effective_factors_after_fit example_trial_model example_trial_fitted
              example_trial_trained example_X example_optimizer (Scalar 2%nat)
              (Scalar 1) None [(3%nat, 1)] eq_refl eq_refl k_trial trial_var
              eq_refl (fun _ => eq_refl))
    as (t & Ht & Hs & _).
  exists t; split; [exact Ht|].
  intros s; apply (Hs s); reflexivity.
Defined.

Lemma obj_history_append_only_witness :
  fit example_trial_model example_X example_optimizer (Scalar 2%nat) (Scalar 1) None
  = (example_trial_fitted, Ok tt)
  /\ exists h,
       obj_history example_trial_trained = Some h /\ length h = 5%nat.
Proof.
  split; [reflexivity|].
  destruct (@obj_history_append_only example_backend) as (_ & Hphases & Hfit & _).
  destruct (Hfit example_trial_model example_trial_fitted example_X
              example_optimizer (Scalar 2%nat) (Scalar 1) None eq_refl)
    as (h & Hh & Lh & _).
  destruct (Hphases [(3%nat, 1)] example_trial_fitted example_trial_trained h
              eq_refl Hh) as (new & Hn & Ln & _).
  exists (h ++ new); split; [exact Hn|].
  rewrite length_app, Lh, Ln; reflexivity.
Defined.






Lemma prediction_after_fit_witness :
  fit example_model example_X example_optimizer (Scalar 2%nat) (Scalar 1) None
  = (example_fitted, Ok tt)
  /\ exists pred,
       X_pred example_fitted = Some pred
       /\ get3 (pred example_store) 0 1 0
          = Some (sum_over 1 (fun k => entry3 [[[2]; [3]]] 0 1 k * entry2 [[5]] 0 k)).
Proof.
  split; [reflexivity|].
  destruct (prediction_after_fit example_model example_fitted example_X
              example_optimizer (Scalar 2%nat) (Scalar 1) None eq_refl)
    as (pred & wtf & t_time & t_neuron & t_warp & Hp & Hw & Ht & Hn & Hwp & Hall).
  exists pred; split; [exact Hp|].
  assert (Ew : data (wtf example_store) = [[[2]; [3]]])
    by (injection Hw as <-; reflexivity).
  assert (En : t_neuron example_store = [[5]])
    by (injection Hn as <-; reflexivity).
  destruct (Hall example_store) as (_ & _ & He).
  rewrite Ew, En in He.
  assert (HK : Forall (fun row : list R => length row = n_components example_fitted)
                 [[5]]) by (repeat constructor).
  destruct (He HK O 1%nat O) as (Hf & _); simpl; try lia.
  exact (Hf eq_refl).
Defined.

Lemma predict_shape_mismatch_raises_witness :
  fit example_model example_X example_optimizer (Scalar 2%nat) (Scalar 1) None
  = (example_fitted, Ok tt)
  /\ fit_trial_factors example_model = false
  /\ dim0 example_held_out <> dim0 example_X
  /\ exists msg,
       predict example_fitted (X_is_ndarray example_held_out)
       = Raise (ValueError msg).
Proof.
  assert (Hne : dim0 example_held_out <> dim0 example_X) by discriminate.
  split; [reflexivity|]. split; [reflexivity|]. split; [exact Hne|].
  apply (predict_shape_mismatch_raises example_model example_fitted example_X
           example_optimizer (Scalar 2%nat) (Scalar 1) None example_held_out
           eq_refl eq_refl (or_introl Hne)).
Defined.

Lemma predict_before_fit_raises_witness :
  _sess example_model = None
  /\ predict example_model (X_is_ndarray example_X)
     = Raise (ValueError
         "No model has been fit - must call TWPCA.fit() before TWPCA.predict().").
Proof.
  split; [reflexivity|].
  exact (predict_before_fit_raises example_model (X_is_ndarray example_X) eq_refl).
Defined.

Lemma predict_None_reconstructs_witness :
  fit example_model example_X example_optimizer (Scalar 2%nat) (Scalar 1) None
  = (example_fitted, Ok tt)
  /\ exists v, predict example_fitted X_is_None = Ok v.
Proof.
  split; [reflexivity|].
  destruct (predict_None_reconstructs example_model example_fitted example_X
              example_optimizer (Scalar 2%nat) (Scalar 1) None eq_refl)
    as (sess' & pred & _ & _ & Hp).
  eexists; exact Hp.
Defined.

(** ** Further properties of [fit], [train], [predict] and [transform] *)

Section MoreProperties.
Context `{B : Backend}.

(** *** What [train] changes *)

Lemma set_training_twice (m : TWPCA) (h h' : list float) (s s' : option Session) :
  set_training (set_training m h s) h' s' = set_training m h' s'.
Proof. reflexivity. Qed.

Lemma train_outcome (m m' : TWPCA) (niter : nat) (lr : R) (r : result unit) :
  train m niter lr = (m', r) ->
  (r = Ok tt /\ exists h s, m' = set_training m h s)
  \/ (m' = m /\ exists msg, r = Raise (AttributeError msg)).
Proof.
  unfold train; intros H.
  destruct (objective m) as [obj|], (_train_op m) as [op|];
    try solve [inversion H; subst; right; eauto].
  destruct (obj_history m) as [h|]; try solve [inversion H; subst; right; eauto].
  destruct (_sess m) as [sess|].
  - destruct (run_steps obj op lr niter sess) as [vals sess'].
    inversion H; subst; left; eauto.
  - destruct niter; inversion H; subst; [left | right]; eauto.
Qed.

Lemma train_phases_outcome (phases : list (nat * R)) :
  forall (m m' : TWPCA) (r : result unit),
    train_phases m phases = (m', r) ->
    m' = m \/ exists h s, m' = set_training m h s.
Proof.
  induction phases as [|[n l] rest IH]; intros m m' r H; simpl in H.
  - inversion H; subst; left; reflexivity.
  - destruct (train m n l) as [m1 [[]|e]] eqn:E.
    + destruct (train_outcome _ _ _ _ _ E) as [[_ (h & s & E1)]|[_ (msg & N)]];
        [|discriminate].
      destruct (IH _ _ _ H) as [E2|(h' & s' & E2)]; subst; right;
        [exists h, s; reflexivity | exists h', s'; apply set_training_twice].
    + inversion H; subst.
      destruct (train_outcome _ _ _ _ _ E) as [[N _]|[E1 _]];
        [discriminate | left; exact E1].
Qed.

(** [train], and any run of [train] calls, changes nothing of the estimator
    but [obj_history] and the state of the session; a call that raises
    changes nothing at all. *)
Theorem train_changes_history_and_session_only :
  (forall (phases : list (nat * R)) (m m' : TWPCA) (r : result unit),
      train_phases m phases = (m', r) ->
      m' = m \/ exists h s, m' = set_training m h s)
  /\ (forall (m m' : TWPCA) (niter : nat) (lr : R) (e : exn),
        train m niter lr = (m', Raise e) -> m' = m).
Proof.
  split; [exact train_phases_outcome|].
  intros m m' niter lr e E.
  destruct (train_outcome _ _ _ _ _ E) as [[N _]|[E1 _]]; [discriminate | exact E1].
Qed.

(** *** Training composes *)

Lemma run_steps_add (obj : tensor float) (op : R -> Session -> Session) (lr : R)
    (a b : nat) :
  forall sess,
    run_steps obj op lr (a + b) sess
    = (fst (run_steps obj op lr a sess)
         ++ fst (run_steps obj op lr b (snd (run_steps obj op lr a sess))),
       snd (run_steps obj op lr b (snd (run_steps obj op lr a sess)))).
Proof.
  induction a as [|a IH]; intros sess; simpl.
  - destruct (run_steps obj op lr b sess); reflexivity.
  - rewrite IH. destruct (run_steps obj op lr a (op lr sess)) as [v1 s1]; simpl.
    reflexivity.
Qed.

(** On an estimator that has its graph, its history and its session, [train]
    is the run of [run_steps] from the session. *)
Lemma train_ready (m : TWPCA) (obj : tensor float) (op : R -> Session -> Session)
    (h : list float) (sess : Session) (niter : nat) (lr : R) :
  objective m = Some obj -> _train_op m = Some op -> obj_history m = Some h ->
  _sess m = Some sess ->
  train m niter lr
  = (set_training m (h ++ fst (run_steps obj op lr niter sess))
       (Some (snd (run_steps obj op lr niter sess))), Ok tt).
Proof.
  intros Ho Ht Hh Hs. unfold train. rewrite Ho, Ht, Hh, Hs.
  destruct (run_steps obj op lr niter sess); reflexivity.
Qed.

(** [train(a + b, lr)] is [train(a, lr)] followed by [train(b, lr)]: the
    session carries the variables and the optimizer's slots from one call to
    the next. *)
Theorem train_splits (m m1 m2 : TWPCA) (a b : nat) (lr : R) :
  train m a lr = (m1, Ok tt) ->
  train m1 b lr = (m2, Ok tt) ->
  train m (a + b) lr = (m2, Ok tt).
Proof.
  intros H1 H2.
  destruct (objective m) as [obj|] eqn:Ho;
    [|unfold train in H1; rewrite Ho in H1; discriminate].
  destruct (_train_op m) as [op|] eqn:Ht;
    [|unfold train in H1; rewrite Ho, Ht in H1; discriminate].
  destruct (obj_history m) as [h|] eqn:Hh;
    [|unfold train in H1; rewrite Ho, Ht, Hh in H1; discriminate].
  destruct (_sess m) as [sess|] eqn:Hse.
  2:{ unfold train in H1; rewrite Ho, Ht, Hh, Hse in H1.
      destruct a; [|discriminate]. inversion H1; subst m1; clear H1.
      unfold train in H2; simpl in H2; rewrite Ho, Ht in H2.
      destruct b; [|discriminate]. inversion H2; subst m2; clear H2.
      unfold train; simpl; rewrite Ho, Ht, Hh, Hse.
      rewrite !app_nil_r; reflexivity. }
  rewrite (train_ready m obj op h sess a lr Ho Ht Hh Hse) in H1.
  inversion H1; subst m1; clear H1.
  rewrite (train_ready
             (set_training m (h ++ fst (run_steps obj op lr a sess))
                (Some (snd (run_steps obj op lr a sess))))
             obj op (h ++ fst (run_steps obj op lr a sess))
             (snd (run_steps obj op lr a sess)) b lr Ho Ht eq_refl eq_refl) in H2.
  inversion H2; subst m2; clear H2.
  rewrite (train_ready m obj op h sess (a + b) lr Ho Ht Hh Hse), run_steps_add.
  simpl. rewrite set_training_twice, app_assoc. reflexivity.
Qed.

Lemma train_phases_app (p q : list (nat * R)) :
  forall m : TWPCA,
    train_phases m (p ++ q)
    = match train_phases m p with
      | (m1, Ok _) => train_phases m1 q
      | (m1, Raise e) => (m1, Raise e)
      end.
Proof.
  induction p as [|[n l] p IH]; intros m; simpl; [reflexivity|].
  destruct (train m n l) as [m1 [[]|e]]; [apply IH | reflexivity].
Qed.

Lemma fit_unfold (m : TWPCA) (X' : ndarray float) (optimizer : Optimizer)
    (niter : number_or_iterable nat) (lr : number_or_iterable R)
    (sess : option Session) (ns : list nat) (ls : list R) (last : list nat) :
  schedule niter lr = Ok (ns, ls) ->
  compute_last_idx (dim1 X') (map3 isfinite (data X')) = Ok last ->
  fit m X' optimizer niter lr sess
  = train_phases (fitted_graph m X' optimizer sess last) (combine ns ls).
Proof.
  intros Hs Hl. unfold fit. rewrite Hs.
  change (dim1 (np_astype_float32 X')) with (dim1 X').
  rewrite Hl. reflexivity.
Qed.

Lemma combine_snoc {A C} (l1 : list A) (l2 : list C) (a : A) (c : C) :
  length l1 = length l2 -> combine (l1 ++ [a]) (l2 ++ [c]) = combine l1 l2 ++ [(a, c)].
Proof.
  revert l2; induction l1 as [|x l1 IH]; intros [|y l2] L; simpl in *;
    try discriminate; [reflexivity|].
  rewrite IH by lia. reflexivity.
Qed.

Lemma schedule_lengths (niter : number_or_iterable nat) (lr : number_or_iterable R)
    (ns : list nat) (ls : list R) :
  schedule niter lr = Ok (ns, ls) -> length ns = length ls.
Proof.
  destruct niter as [n|ns'], lr as [l|ls']; simpl; intros H; try discriminate.
  - inversion H; reflexivity.
  - destruct (Nat.eqb_spec (length ns') (length ls')); simpl in H; [|discriminate].
    inversion H; subst; assumption.
Qed.

(** A partial fit resumes: [fit] followed by [train(n, l)] leaves the
    estimator that [fit] with the phase [(n, l)] added to its schedule
    leaves, and ends the same way. *)
Theorem fit_then_train_resumes (m m1 m2 : TWPCA) (X' : ndarray float)
    (optimizer : Optimizer) (niter : number_or_iterable nat)
    (lr : number_or_iterable R) (sess : option Session)
    (ns : list nat) (ls : list R) (n : nat) (l : R) (r : result unit) :
  fit m X' optimizer niter lr sess = (m1, Ok tt) ->
  schedule niter lr = Ok (ns, ls) ->
  train m1 n l = (m2, r) ->
  fit m X' optimizer (Iterable (ns ++ [n])) (Iterable (ls ++ [l])) sess = (m2, r).
Proof.
  intros H Hs Ht.
  destruct (fit_returned _ _ _ _ _ _ _ H) as (ns' & ls' & last & Hs' & Hl & T).
  assert (E : (ns', ls') = (ns, ls)) by congruence. inversion E; subst; clear E Hs'.
  pose proof (schedule_lengths _ _ _ _ Hs) as L.
  rewrite (fit_unfold m X' optimizer _ _ sess (ns ++ [n]) (ls ++ [l]) last);
    [|simpl; rewrite !length_app, L, Nat.eqb_refl; reflexivity | exact Hl].
  rewrite combine_snoc, train_phases_app, T by exact L.
  simpl. rewrite Ht. destruct r as [[]|e]; reflexivity.
Qed.

Lemma train_phases_merge (m : TWPCA) (obj : tensor float)
    (op : R -> Session -> Session) (h : list float) (sess : Session)
    (a b : nat) (l : R) (rest : list (nat * R)) :
  objective m = Some obj -> _train_op m = Some op -> obj_history m = Some h ->
  _sess m = Some sess ->
  train_phases m ((a, l) :: (b, l) :: rest)
  = train_phases m (((a + b)%nat, l) :: rest).
Proof.
  intros Ho Ht Hh Hs. simpl.
  rewrite (train_ready m obj op h sess a l Ho Ht Hh Hs).
  rewrite (train_ready
             (set_training m (h ++ fst (run_steps obj op l a sess))
                (Some (snd (run_steps obj op l a sess))))
             obj op (h ++ fst (run_steps obj op l a sess))
             (snd (run_steps obj op l a sess)) b l Ho Ht eq_refl eq_refl).
  rewrite (train_ready m obj op h sess (a + b) l Ho Ht Hh Hs), run_steps_add.
  simpl. rewrite set_training_twice, app_assoc. reflexivity.
Qed.

(** Two consecutive phases with the same learning rate are one phase of
    their iterations added up: the two calls to [fit] leave the same
    estimator and end the same way. *)
Theorem fit_merges_equal_rate_phases (m : TWPCA) (X' : ndarray float)
    (optimizer : Optimizer) (a b : nat) (ns : list nat) (l : R) (ls : list R)
    (sess : option Session) :
  fit m X' optimizer (Iterable (a :: b :: ns)) (Iterable (l :: l :: ls)) sess
  = fit m X' optimizer (Iterable ((a + b)%nat :: ns)) (Iterable (l :: ls)) sess.
Proof.
  unfold fit. simpl schedule.
  destruct (Nat.eqb (length ns) (length ls)); simpl negb; cbv iota; [|reflexivity].
  change (dim1 (np_astype_float32 X')) with (dim1 X').
  destruct (compute_last_idx (dim1 X') (map3 isfinite (data X'))) as [last|e];
    [|reflexivity].
  simpl combine.
  eapply train_phases_merge; reflexivity.
Qed.

(** *** What [fit] leaves of the constructor's arguments *)

Lemma fit_configuration (m m' : TWPCA) (X' : ndarray float)
    (optimizer : Optimizer) (niter : number_or_iterable nat)
    (lr : number_or_iterable R) (sess : option Session) (r : result unit) :
  fit m X' optimizer niter lr sess = (m', r) ->
  shared_length m'
  = Some (match shared_length m with Some n => n | None => dim1 X' end)
  /\ n_components m' = n_components m
  /\ fit_trial_factors m' = fit_trial_factors m
  /\ nonneg m' = nonneg m
  /\ warptype m' = warptype m
  /\ warpinit m' = warpinit m
  /\ origin_idx m' = origin_idx m
  /\ _regularizers m' = _regularizers m.
Proof.
  unfold fit; intros H.
  change (dim1 (np_astype_float32 X')) with (dim1 X') in H.
  destruct (schedule niter lr) as [[ns ls]|e].
  - destruct (compute_last_idx (dim1 X') (map3 isfinite (data X'))) as [last|e].
    + destruct (train_phases_outcome _ _ _ _ H) as [E|(h & s & E)]; subst m';
        destruct (shared_length m) eqn:El; simpl; rewrite ?El; repeat split.
    + inversion H; subst; destruct (shared_length m) eqn:El; simpl; rewrite ?El;
        repeat split.
  - inversion H; subst; destruct (shared_length m) eqn:El; simpl; rewrite ?El;
      repeat split.
Qed.

(** [fit] sets [shared_length] to the number of timesteps of its data only
    when it is [None]; a later [fit], on data of any length, keeps it.  No
    other argument of the constructor is changed by [fit], whether it
    returns or raises. *)
Theorem fit_sets_shared_length_once (m m1 m2 : TWPCA) (X1 X2 : ndarray float)
    (optimizer1 optimizer2 : Optimizer) (niter1 niter2 : number_or_iterable nat)
    (lr1 lr2 : number_or_iterable R) (sess1 sess2 : option Session)
    (r1 r2 : result unit) :
  fit m X1 optimizer1 niter1 lr1 sess1 = (m1, r1) ->
  fit m1 X2 optimizer2 niter2 lr2 sess2 = (m2, r2) ->
  shared_length m1
  = Some (match shared_length m with Some n => n | None => dim1 X1 end)
  /\ shared_length m2 = shared_length m1
  /\ n_components m2 = n_components m
  /\ fit_trial_factors m2 = fit_trial_factors m
  /\ nonneg m2 = nonneg m
  /\ warptype m2 = warptype m
  /\ warpinit m2 = warpinit m
  /\ origin_idx m2 = origin_idx m
  /\ _regularizers m2 = _regularizers m.
Proof.
  intros H1 H2.
  destruct (fit_configuration _ _ _ _ _ _ _ _ H1)
    as (S1 & K1 & F1 & N1 & W1 & I1 & O1 & R1).
  destruct (fit_configuration _ _ _ _ _ _ _ _ H2)
    as (S2 & K2 & F2 & N2 & W2 & I2 & O2 & R2).
  split; [exact S1|]. split; [rewrite S2, S1; reflexivity|].
  repeat split; congruence.
Qed.

(** *** Data with no timestep *)

(** On data of zero timesteps, with a schedule that passes the check,
    [np.argmax] of line 107 raises [ValueError]: [fit] has by then stored
    the data, the mask and the number of finite entries, and has built no
    graph and no session. *)
Theorem fit_no_timestep_raises (m : TWPCA) (X' : ndarray float)
    (optimizer : Optimizer) (niter : number_or_iterable nat)
    (lr : number_or_iterable R) (sess : option Session) :
  dim1 X' = O ->
  ~ schedule_mismatch niter lr ->
  exists m',
    fit m X' optimizer niter lr sess
    = (m', Raise (ValueError "attempt to get argmax of an empty sequence"))
    /\ X m' = Some (map3 nan_to_num (data (np_astype_float32 X')))
    /\ _mask m' = Some (map3 bool_to_float32 (map3 isfinite (data X')))
    /\ _num_datapoints m' = Some (np_sum_bool (map3 isfinite (data X')))
    /\ last_idx m' = last_idx m
    /\ _params m' = _params m
    /\ _raw_params m' = _raw_params m
    /\ objective m' = objective m
    /\ obj_history m' = obj_history m
    /\ _sess m' = _sess m.
Proof.
  intros HT Hs. unfold fit.
  assert (Es : exists ns ls, schedule niter lr = Ok (ns, ls)).
  { destruct niter as [n|ns], lr as [l|ls]; simpl in *; try tauto; eauto.
    destruct (Nat.eqb_spec (length ns) (length ls)); simpl; [eauto | tauto]. }
  destruct Es as (ns & ls & Es); rewrite Es.
  change (dim1 (np_astype_float32 X')) with (dim1 X').
  unfold compute_last_idx, argmax_axis1. rewrite HT.
  eexists; split; [reflexivity|].
  destruct (shared_length m); repeat split.
Qed.

(** *** Before [fit] *)

(** An estimator as the constructor leaves it has no graph and no session:
    [train] and the [params] property raise [AttributeError], [predict]
    raises the [ValueError] of line 222, and [transform] raises
    [AttributeError], or [ValueError] for an argument it does not accept;
    [train] leaves the estimator as it was. *)
Theorem unfitted_estimator_raises (n_components' : nat) (shared_length' : option nat)
    (trial_regularizer time_regularizer neuron_regularizer : matrix -> R)
    (nonneg' fit_trial_factors' : bool) (warptype' warpinit' : string)
    (warp_regularizer : matrix -> R) (origin_idx' : option nat) :
  let m0 := __init__ n_components' shared_length' trial_regularizer
              time_regularizer neuron_regularizer nonneg' fit_trial_factors'
              warptype' warpinit' warp_regularizer origin_idx' in
  (forall niter lr,
      train m0 niter lr
      = (m0, Raise (AttributeError "'TWPCA' object has no attribute 'objective'")))
  /\ params m0 = Raise (AttributeError "'NoneType' object has no attribute 'run'")
  /\ (forall arg,
        predict m0 arg
        = Raise (ValueError
            "No model has been fit - must call TWPCA.fit() before TWPCA.predict()."))
  /\ transform m0 T_is_None
     = Raise (AttributeError "'TWPCA' object has no attribute 'X'")
  /\ (forall a,
        transform m0 (T_is_ndarray a)
        = Raise (AttributeError "'NoneType' object has no attribute 'run'"))
  /\ (forall t,
        transform m0 (T_is_Tensor t)
        = Raise (AttributeError "'NoneType' object has no attribute 'run'"))
  /\ transform m0 T_is_other
     = Raise (ValueError "X must be a numpy array or tensorflow tensor").
Proof. cbv zeta. repeat split. Qed.

(** *** What the last-valid index marks *)

Lemma first_index_found {A} (p : A -> bool) (l : list A) :
  forall r,
    first_index p l = Some r ->
    (exists a, nth_error l r = Some a /\ p a = true)
    /\ forall k b, (k < r)%nat -> nth_error l k = Some b -> p b = false.
Proof.
  induction l as [|a l IH]; intros r H; simpl in H; [discriminate|].
  destruct (p a) eqn:Ea.
  - inversion H; subst; split; [exists a; auto | intros k b Hk; lia].
  - destruct (first_index p l) as [r'|]; simpl in H; [|discriminate].
    inversion H; subst. destruct (IH r' eq_refl) as (Hf & Hm). split; [exact Hf|].
    intros [|k] b Hk Hb; simpl in Hb; [congruence|].
    apply (Hm k); [lia | assumption].
Qed.

Lemma first_index_not_found {A} (p : A -> bool) (l : list A) :
  first_index p l = None -> forall a, In a l -> p a = false.
Proof.
  induction l as [|a l IH]; intros H b Hb; simpl in *; [contradiction|].
  destruct (p a) eqn:Ea; [discriminate|].
  destruct (first_index p l); [discriminate|].
  destruct Hb as [<-|Hb]; auto.
Qed.

Lemma wf_ndarray_trial {A} (X' : ndarray A) (i : nat) (trial : list (list A)) :
  wf_ndarray X' = true -> nth_error (data X') i = Some trial ->
  length trial = dim1 X'.
Proof.
  unfold wf_ndarray; intros H Hi.
  apply andb_prop in H; destruct H as [_ H].
  rewrite forallb_forall in H. specialize (H trial (nth_error_In _ _ Hi)).
  apply andb_prop in H; destruct H as [H _].
  apply Nat.eqb_eq; exact H.
Qed.

(** On well-formed data, the last-valid index of a trial lies between 1 and
    the number of timesteps; and when the trial has a timestep at which all
    channels are finite, the timestep just before the index is such a
    timestep and no timestep from the index on is. *)
Theorem last_idx_marks_last_valid_timestep (m m' : TWPCA) (X' : ndarray float)
    (optimizer : Optimizer) (niter : number_or_iterable nat)
    (lr : number_or_iterable R) (sess : option Session) :
  fit m X' optimizer niter lr sess = (m', Ok tt) ->
  wf_ndarray X' = true ->
  exists last,
    last_idx m' = Some last
    /\ forall i trial,
         nth_error (data X') i = Some trial ->
         exists li,
           nth_error last i = Some li
           /\ (1 <= li <= dim1 X')%nat
           /\ ((exists row, In row trial /\ fully_valid row = true) ->
               (exists row,
                   nth_error trial (li - 1) = Some row /\ fully_valid row = true)
               /\ forall j row,
                    (li <= j)%nat -> nth_error trial j = Some row ->
                    fully_valid row = false).
Proof.
  intros H Hwf.
  destruct (fit_same_graph _ _ _ _ _ _ _ H) as (last & E & G).
  apply compute_last_idx_spec in E; destruct E as [HT E].
  unfold same_graph in G.
  destruct G as (_ & _ & _ & _ & _ & _ & _ & _ & _ & _ & Gl & _).
  exists last; split; [rewrite Gl; reflexivity|].
  intros i trial Hi.
  pose proof (wf_ndarray_trial X' i trial Hwf Hi) as L.
  exists (last_valid_index (dim1 X') trial).
  split; [subst last; rewrite nth_error_map, Hi; reflexivity|].
  unfold last_valid_index.
  destruct (first_index fully_valid (rev trial)) as [r|] eqn:Er.
  - pose proof (first_index_bound _ _ _ Er) as Hr. rewrite length_rev, L in Hr.
    destruct (first_index_found _ _ _ Er) as ((row & Hrow & Hv) & Hmin).
    rewrite nth_error_rev, L in Hrow.
    destruct (Nat.ltb_spec r (dim1 X')) as [_|N]; [|lia].
    split; [lia|]. intros _. split.
    + exists row. replace (dim1 X' - r - 1)%nat with (dim1 X' - S r)%nat by lia.
      auto.
    + intros j row' Hj Hrow'.
      assert (Hjl : (j < dim1 X')%nat)
        by (rewrite <- L; apply nth_error_Some; congruence).
      apply (Hmin (dim1 X' - S j)%nat); [lia|].
      rewrite nth_error_rev, L.
      destruct (Nat.ltb_spec (dim1 X' - S j) (dim1 X')) as [_|N]; [|lia].
      replace (dim1 X' - S (dim1 X' - S j))%nat with j by lia. exact Hrow'.
  - split; [lia|]. intros (row & Hin & Hv).
    pose proof (first_index_not_found _ _ Er row) as N.
    rewrite N in Hv; [discriminate | apply in_rev; rewrite rev_involutive; exact Hin].
Qed.

(** *** The sign of the reconstruction cost *)

Lemma squared_difference_nonneg (e : R * (R * R)) : 0 <= squared_difference e.
Proof. unfold squared_difference. apply pow2_ge_0. Qed.

Lemma squared_difference_zero (e : R * (R * R)) :
  squared_difference e = 0 <-> fst (snd e) = snd (snd e).
Proof.
  unfold squared_difference; split; intros H.
  - assert (E : (fst (snd e) - snd (snd e)) * (fst (snd e) - snd (snd e)) = 0)
      by (rewrite <- H; ring).
    apply Rmult_integral in E. lra.
  - rewrite H; ring.
Qed.

Lemma sum_list_nonneg (f : R * (R * R) -> R) (l : list (R * (R * R))) :
  (forall e, 0 <= f e) -> 0 <= sum_list (map f l).
Proof.
  intros Hf; unfold sum_list; induction l as [|e l IH]; simpl; [lra|].
  specialize (Hf e); lra.
Qed.

Lemma sum_list_zero (f : R * (R * R) -> R) (l : list (R * (R * R))) :
  (forall e, 0 <= f e) ->
  (sum_list (map f l) = 0 <-> Forall (fun e => f e = 0) l).
Proof.
  intros Hf; induction l as [|e l IH]; simpl.
  - split; [constructor | reflexivity].
  - pose proof (sum_list_nonneg f l Hf) as Hl. pose proof (Hf e) as He.
    unfold sum_list in *; simpl. split.
    + intros H. constructor; [lra | apply IH; lra].
    + intros H; inversion H as [|? ? H0 Hr]; subst.
      apply IH in Hr. lra.
Qed.

Lemma fadd_not_negative (a b : float) :
  not_negative a -> not_negative b -> not_negative (fadd a b).
Proof.
  destruct a as [x| | |], b as [y| | |]; simpl; intros Ha Hb;
    try exact I; try contradiction.
  apply float32_of_exact_not_negative; lra.
Qed.

Lemma fmul_square_not_negative (d : float) : not_negative (fmul d d).
Proof.
  destruct d as [y| | |]; simpl; try exact I.
  apply float32_of_exact_not_negative. apply Rle_0_sqr.
Qed.

Lemma fmul_mask_not_negative (b : bool) (q : float) :
  not_negative q -> not_negative (fmul (Fin (bool_to_float32 b)) q).
Proof.
  destruct q as [y| | |]; simpl; intros Hq; try exact I; try contradiction.
  - apply float32_of_exact_not_negative.
    destruct b; simpl; lra.
  - unfold infinity_times.
    destruct (Req_dec_T (bool_to_float32 b) 0) as [E|E]; [exact I|].
    destruct (Rlt_dec 0 (bool_to_float32 b)) as [L|L]; [exact I|].
    destruct b; simpl in *; lra.
Qed.

Lemma fsum_list_not_negative (l : list float) :
  Forall not_negative l -> not_negative (fsum_list l).
Proof.
  unfold fsum_list. induction 1 as [|a l Ha Hl IH]; simpl; [lra|].
  apply fadd_not_negative; assumption.
Qed.

Lemma freduce_sum_not_negative (t : list (list (list float))) :
  Forall (Forall (Forall not_negative)) t -> not_negative (freduce_sum t).
Proof.
  intros H. unfold freduce_sum.
  apply fsum_list_not_negative, Forall_map.
  eapply Forall_impl; [|exact H]. intros ti Hti.
  apply fsum_list_not_negative, Forall_map.
  eapply Forall_impl; [|exact Hti]. intros row Hrow.
  apply fsum_list_not_negative; exact Hrow.
Qed.

Lemma fdiv_count_not_negative (a : float) (n : nat) :
  not_negative a -> not_negative (fdiv_count a n).
Proof.
  destruct a as [x| | |]; intros Ha; try exact I; try exact Ha.
  cbn [not_negative] in Ha. destruct n as [|k]; cbn [fdiv_count].
  - destruct (Req_dec_T x 0) as [E|E]; [exact I|].
    destruct (Rlt_dec 0 x) as [L|L]; [exact I | lra].
  - cbn [not_negative].
    apply Rmult_le_pos; [exact Ha|].
    left. apply Rinv_0_lt_compat, lt_0_INR, Nat.lt_0_succ.
Qed.

Lemma map3_map3 {A C D} (f : C -> D) (g : A -> C) (t : list (list (list A))) :
  map3 f (map3 g t) = map3 (fun a => f (g a)) t.
Proof.
  unfold map3. rewrite map_map. apply map_ext; intros ti.
  rewrite map_map. apply map_ext; intros row. apply map_map.
Qed.

(** Line 143 is never negative, whatever the mask, the prediction and the
    data hold. *)
Lemma recon_cost_not_negative (mk : list (list (list bool))) (pred : tensor tensor3)
    (x : tensor3) (num : nat) (s : store) :
  not_negative (recon_cost_of (map3 bool_to_float32 mk) pred x num s).
Proof.
  unfold recon_cost_of.
  apply fdiv_count_not_negative, freduce_sum_not_negative.
  rewrite map3_map3. unfold zipWith3d, map3.
  apply (Forall_zipWith
           (Forall (Forall (fun a => exists b, a = Fin (bool_to_float32 b))))
           (Forall (Forall not_negative))).
  - apply (Forall_zipWith
             (Forall (fun a => exists b, a = Fin (bool_to_float32 b)))
             (Forall not_negative)).
    apply (Forall_zipWith (fun a => exists b, a = Fin (bool_to_float32 b))
             not_negative).
    intros a c [b ->] Hc. apply fmul_mask_not_negative; exact Hc.
  - do 2 (apply Forall_map_all; intros ?). apply Forall_map_all.
    intros b; exists b; reflexivity.
  - do 2 (apply Forall_map_all; intros ?). apply Forall_map_all.
    intros d. apply fmul_square_not_negative.
Qed.

(** The reconstruction cost is never negative: on every state of the
    variables it is NaN, plus infinity, or a finite number that is not
    negative.  It is zero on a state where every entry is within the range
    of float32 and the prediction equals the stored data at every entry
    whose mask value is 1, when the data has a finite entry. *)
Theorem recon_cost_nonnegative (m m' : TWPCA) (X' : ndarray float)
    (optimizer : Optimizer) (niter : number_or_iterable nat)
    (lr : number_or_iterable R) (sess : option Session) :
  fit m X' optimizer niter lr sess = (m', Ok tt) ->
  exists cost pred mask x num,
    recon_cost m' = Some cost /\ X_pred m' = Some pred
    /\ _mask m' = Some mask /\ X m' = Some x
    /\ _num_datapoints m' = Some num
    /\ forall s : store,
         not_negative (cost s)
         /\ cost s <> NegInf
         /\ (forall c, cost s = Fin c -> 0 <= c)
         /\ (Forall entry_in_range (entries mask (pred s) x) ->
             (0 < num)%nat ->
             Forall (fun e => fst (snd e) = snd (snd e))
                    (filter mask_is_one (entries mask (pred s) x)) ->
             cost s = Fin 0).
Proof.
  intros H.
  destruct (fit_same_graph _ _ _ _ _ _ _ H) as (last & _ & G).
  destruct (fitted_graph_attributes m X' optimizer sess last)
    as (t_warp & wtf & pred & cost & obj & A).
  cbv zeta in A.
  destruct A as (_ & _ & Apred & Acost & _ & Amask & Ax & Anum & _ & _ & _ & _ & A).
  unfold same_graph in G.
  destruct G as (_ & _ & _ & _ & _ & _ & _ & Gx & Gnum & Gmask & _ & _
                 & Gpred & Gcost & _).
  exists cost, pred, (map3 bool_to_float32 (map3 isfinite (data X'))),
    (map3 nan_to_num (data (np_astype_float32 X'))),
    (np_sum_bool (map3 isfinite (data X'))).
  split; [rewrite Gcost; exact Acost|]. split; [rewrite Gpred; exact Apred|].
  split; [rewrite Gmask; exact Amask|]. split; [rewrite Gx; exact Ax|].
  split; [rewrite Gnum; exact Anum|].
  intros s. destruct (A s) as (_ & _ & _ & Ac & _).
  pose proof (recon_cost_not_negative (map3 isfinite (data X')) pred
                (map3 nan_to_num (data (np_astype_float32 X')))
                (np_sum_bool (map3 isfinite (data X'))) s) as Hn.
  rewrite <- Ac in Hn.
  split; [exact Hn|].
  split; [intros E; rewrite E in Hn; exact Hn|].
  split; [intros c E; rewrite E in Hn; exact Hn|].
  intros He Hnum Hz.
  assert (Es : masked_squared_error
                 (map3 bool_to_float32 (map3 isfinite (data X'))) (pred s)
                 (map3 nan_to_num (data (np_astype_float32 X'))) = 0).
  { unfold masked_squared_error.
    apply (sum_list_zero squared_difference _ squared_difference_nonneg).
    eapply Forall_impl; [|exact Hz].
    intros e E. apply squared_difference_zero. exact E. }
  rewrite Ac, recon_cost_in_range; try assumption.
  - rewrite Es. f_equal. unfold Rdiv. apply Rmult_0_l.
  - rewrite Es. pose proof FLT_MAX_ge_1. lra.
Qed.

(** *** The dictionaries of a first [fit] *)

(** On an estimator whose dictionaries are empty, as the constructor leaves
    them, [fit] fills [_params] with the keys warp, time, neuron, in this
    order, and trial last when trial factors are fitted; the [params]
    snapshot has the same keys in the same order; and the training operation
    minimizes the objective over the time and neuron variables, the trial
    variable only when trial factors are fitted, and the warp variables. *)
Theorem first_fit_dictionaries (m m' : TWPCA) (X' : ndarray float)
    (optimizer : Optimizer) (niter : number_or_iterable nat)
    (lr : number_or_iterable R) (sess : option Session) :
  fit m X' optimizer niter lr sess = (m', Ok tt) ->
  _params m = [] ->
  _raw_params m = [] ->
  map fst (_params m')
  = k_warp :: k_time :: k_neuron
      :: (if fit_trial_factors m then [k_trial] else [])
  /\ _raw_params m'
     = (k_time, time_var) :: (k_neuron, neuron_var)
         :: (if fit_trial_factors m then [(k_trial, trial_var)] else [])
  /\ (exists obj,
         objective m' = Some obj
         /\ _train_op m'
            = Some (minimize optimizer obj
                      (factor_variable time_var :: factor_variable neuron_var
                         :: (if fit_trial_factors m
                             then [factor_variable trial_var] else [])
                         ++ [warp_vars])))
  /\ exists snapshot,
       params m' = Ok snapshot
       /\ map fst snapshot
          = k_warp :: k_time :: k_neuron
              :: (if fit_trial_factors m then [k_trial] else []).
Proof.
  intros H Hp Hr.
  destruct (fit_has_session _ _ _ _ _ _ _ H) as (sess' & Hs).
  destruct (fit_same_graph _ _ _ _ _ _ _ H) as (last & _ & G).
  unfold same_graph in G.
  destruct G as (_ & _ & _ & _ & _ & Graw & Gp & _ & _ & _ & _ & _ & _ & _
                 & Gobj & Gop).
  assert (Ek : map fst (_params m')
               = k_warp :: k_time :: k_neuron
                   :: (if fit_trial_factors m then [k_trial] else [])).
  { rewrite Gp. unfold fitted_graph, build_model.
    destruct (shared_length m); simpl; rewrite Hp;
      destruct (fit_trial_factors m); reflexivity. }
  split; [exact Ek|]. split; [|split].
  - rewrite Graw. unfold fitted_graph, build_model.
    destruct (shared_length m); simpl; rewrite Hr;
      destruct (fit_trial_factors m); reflexivity.
  - rewrite Gobj, Gop. unfold fitted_graph, build_model.
    destruct (shared_length m); simpl; rewrite Hr;
      destruct (fit_trial_factors m); simpl; eexists; split; reflexivity.
  - unfold params; rewrite Hs. eexists; split; [reflexivity|].
    rewrite map_map; simpl. exact Ek.
Qed.

(** *** A fit of no iteration *)

Lemma train_phases_idle (phases : list (nat * R)) :
  forall (m : TWPCA) (obj : tensor float) (op : R -> Session -> Session)
         (h : list float) (sess : Session),
    objective m = Some obj -> _train_op m = Some op -> obj_history m = Some h ->
    _sess m = Some sess ->
    Forall (fun p => fst p = O) phases ->
    train_phases m phases = (set_training m h (Some sess), Ok tt).
Proof.
  induction phases as [|[n l] rest IH]; intros m obj op h sess Ho Ht Hh Hs Hz.
  - simpl. f_equal. destruct m; simpl in *; subst; reflexivity.
  - inversion Hz as [|? ? Hn Hrest]; subst. simpl in Hn; subst n. simpl.
    rewrite (train_ready m obj op h sess O l Ho Ht Hh Hs). simpl.
    rewrite app_nil_r.
    rewrite (IH (set_training m h (Some sess)) obj op h sess Ho Ht eq_refl eq_refl
               Hrest).
    reflexivity.
Qed.

Lemma list_sum_zero (l : list nat) : list_sum l = O -> Forall (fun n => n = O) l.
Proof.
  induction l as [|n l IH]; simpl; intros H; constructor; [lia | apply IH; lia].
Qed.

Lemma combine_fst_zero {C} (ns : list nat) (ls : list C) :
  Forall (fun n => n = O) ns -> Forall (fun p => fst p = O) (combine ns ls).
Proof.
  intros H; revert ls; induction H as [|n ns Hn _ IH]; intros [|l ls]; simpl;
    constructor; auto.
Qed.

(** After a [fit] whose schedule has no iteration, the history is empty and
    the session holds the factors of [utils.compute_lowrank_factors], called
    with the last-valid indices of the data; the [params] snapshot shows
    them through the rectifier. *)
Theorem fit_without_iterations (m m' : TWPCA) (X' : ndarray float)
    (optimizer : Optimizer) (niter : number_or_iterable nat)
    (lr : number_or_iterable R) (sess : option Session) :
  fit m X' optimizer niter lr sess = (m', Ok tt) ->
  total_iterations niter = O ->
  exists sess' snapshot trial_init time_init neuron_init,
    compute_lowrank_factors (np_astype_float32 X') (n_components m)
      (fit_trial_factors m) (nonneg m)
      (map (last_valid_index (dim1 X')) (data X'))
    = (trial_init, time_init, neuron_init)
    /\ obj_history m' = Some []
    /\ _sess m' = Some sess'
    /\ time_factors (vars sess') = time_init
    /\ neuron_factors (vars sess') = neuron_init
    /\ trial_factors (vars sess')
       = (if fit_trial_factors m then Some trial_init else None)
    /\ slots sess' = slots_init optimizer
    /\ params m' = Ok snapshot
    /\ dict_get snapshot k_time = Some (rectifier (nonneg m) time_init)
    /\ dict_get snapshot k_neuron = Some (rectifier (nonneg m) neuron_init).
Proof.
  intros H Hz.
  pose proof (params_after_fit _ _ _ _ _ _ _ H) as P.
  destruct (fit_returned _ _ _ _ _ _ _ H) as (ns & ls & last & Hs & Hl & T).
  pose proof (compute_last_idx_spec _ _ _ Hl) as [_ El]. subst last.
  assert (Hns : Forall (fun n => n = O) ns).
  { destruct niter as [n|ns'], lr as [l|ls']; simpl in Hs, Hz; try discriminate.
    - inversion Hs; subst; repeat constructor.
    - destruct (Nat.eqb (length ns') (length ls')); simpl in Hs; [|discriminate].
      inversion Hs; subst. apply list_sum_zero; exact Hz. }
  set (g := fitted_graph m X' optimizer sess
              (map (last_valid_index (dim1 X')) (data X'))) in *.
  assert (Hg : exists obj op sess0,
             objective g = Some obj /\ _train_op g = Some op
             /\ obj_history g = Some [] /\ _sess g = Some sess0
             /\ time_factors (vars sess0)
                = snd (fst (compute_lowrank_factors (np_astype_float32 X')
                              (n_components m) (fit_trial_factors m) (nonneg m)
                              (map (last_valid_index (dim1 X')) (data X'))))
             /\ neuron_factors (vars sess0)
                = snd (compute_lowrank_factors (np_astype_float32 X')
                         (n_components m) (fit_trial_factors m) (nonneg m)
                         (map (last_valid_index (dim1 X')) (data X')))
             /\ trial_factors (vars sess0)
                = (if fit_trial_factors m
                   then Some (fst (fst (compute_lowrank_factors
                                          (np_astype_float32 X') (n_components m)
                                          (fit_trial_factors m) (nonneg m)
                                          (map (last_valid_index (dim1 X'))
                                               (data X')))))
                   else None)
             /\ slots sess0 = slots_init optimizer).
  { unfold g, fitted_graph, build_model.
    destruct (shared_length m); simpl; do 3 eexists; repeat split. }
  destruct Hg as (obj & op & sess0 & Ho & Ht & Hh & Hse & Et & En & Etr & Esl).
  rewrite (train_phases_idle _ g obj op [] sess0 Ho Ht Hh Hse
             (combine_fst_zero ns ls Hns)) in T.
  inversion T; subst m'; clear T.
  destruct (compute_lowrank_factors (np_astype_float32 X') (n_components m)
              (fit_trial_factors m)
              (nonneg m) (map (last_valid_index (dim1 X')) (data X')))
    as [[trial_init time_init] neuron_init] eqn:Ef.
  simpl in Et, En, Etr.
  exists sess0. eexists. exists trial_init, time_init, neuron_init.
  split; [reflexivity|]. split; [reflexivity|]. split; [reflexivity|].
  split; [exact Et|]. split; [exact En|]. split; [exact Etr|].
  split; [exact Esl|]. split; [reflexivity|].
  rewrite !dict_get_map.
  rewrite (P k_time time_var), (P k_neuron neuron_var)
    by (reflexivity || discriminate).
  simpl. unfold sess_run. rewrite Et, En. split; reflexivity.
Qed.

(** *** The shape of a prediction for held-out channels *)

Lemma transpose_shape (ncols : nat) (a : matrix) :
  length (transpose ncols a) = ncols
  /\ Forall (fun row => length row = length a) (transpose ncols a).
Proof.
  unfold transpose; split; [rewrite length_map, length_seq; reflexivity|].
  apply Forall_map, Forall_forall; intros j _. apply length_map.
Qed.

Lemma reshape_rows_shape {A} (P : A -> Prop) (n t : nat) :
  forall a : list A,
    length a = (n * t)%nat -> Forall P a ->
    length (reshape_rows n t a) = n
    /\ Forall (fun chunk => length chunk = t /\ Forall P chunk) (reshape_rows n t a).
Proof.
  induction n as [|n IH]; intros a L HP; simpl; [split; constructor|].
  assert (Hs : length (skipn t a) = (n * t)%nat) by (rewrite length_skipn; lia).
  assert (HPs : Forall P (skipn t a)).
  { rewrite <- (firstn_skipn t a) in HP. apply Forall_app in HP; tauto. }
  destruct (IH (skipn t a) Hs HPs) as (Hl & Hf).
  split; [lia|]. constructor; [|exact Hf].
  split; [apply firstn_length_le; lia|].
  rewrite <- (firstn_skipn t a) in HP. apply Forall_app in HP; tauto.
Qed.

(** Whenever [predict] returns for a numpy array, what it returns has the
    shape of the array: as many trials, as many timepoints in every trial,
    and as many channels at every timepoint. *)
Theorem predict_ndarray_shape (m : TWPCA) (a : ndarray float) (v : tensor3) :
  predict m (X_is_ndarray a) = Ok v ->
  length v = dim0 a
  /\ Forall (fun trial =>
       length trial = dim1 a
       /\ Forall (fun row => length row = dim2 a) trial) v.
Proof.
  unfold predict, predict_ndarray, dim0, dim1, dim2.
  destruct (_sess m) as [sess|]; [|discriminate].
  destruct (shape a) as [[n_trials n_timepoints] n_neurons]; simpl.
  destruct (_warped_time_factors m) as [wtf|]; [|discriminate].
  set (w := if fit_trial_factors m then _ else _).
  destruct w as [w|e]; [|discriminate].
  destruct (negb (Nat.eqb (fst (fst (shape w))) n_trials)); [discriminate|].
  destruct (negb (Nat.eqb (snd (fst (shape w))) n_timepoints)); [discriminate|].
  intros H; inversion H; subst v; clear H.
  match goal with
  | |- context [reshape_rows _ _ (transpose ?c ?p)] =>
      destruct (transpose_shape c p) as (Hl & Hr)
  end.
  eapply reshape_rows_shape; [exact Hl|].
  eapply Forall_impl; [|exact Hr].
  intros row Hrow; simpl in Hrow. rewrite Hrow.
  unfold np_dot. rewrite length_map. apply transpose_shape.
Qed.

(** *** [transform] on a fitted estimator *)

Lemma fit_keeps_inverse_warp (m m' : TWPCA) (X' : ndarray float)
    (optimizer : Optimizer) (niter : number_or_iterable nat)
    (lr : number_or_iterable R) (sess : option Session) :
  fit m X' optimizer niter lr sess = (m', Ok tt) ->
  exists inv,
    _inv_warp m' = Some inv
    /\ X m' = Some (map3 nan_to_num (data (np_astype_float32 X'))).
Proof.
  intros H.
  destruct (fit_returned _ _ _ _ _ _ _ H) as (ns & ls & last & _ & _ & T).
  destruct (train_phases_outcome _ _ _ _ T) as [E|(h & s & E)]; subst m';
    unfold fitted_graph, build_model; destruct (shared_length m); simpl; eauto.
Qed.

Lemma map3_nan_to_num_Fin (d : list (list (list R))) :
  map3 nan_to_num (map3 Fin d) = d.
Proof.
  unfold map3. rewrite map_map.
  erewrite map_ext; [apply map_id|]. intros t. rewrite map_map.
  erewrite map_ext; [apply map_id|]. intros r. rewrite map_map.
  apply map_id.
Qed.

(** On a fitted estimator, [transform] maps what it is given through the
    inverse warps, trial by trial: the stored training data (cast to float32
    and NaN-zeroed) when it is given nothing, the values of a numpy array, or
    a tensor at the variables of the session; it raises [ValueError] for
    anything else.  Given the training data itself, when no entry of its
    float32 cast is missing or infinite, it returns what it returns when
    given nothing. *)
Theorem transform_after_fit (m m' : TWPCA) (X' : ndarray float)
    (optimizer : Optimizer) (niter : number_or_iterable nat)
    (lr : number_or_iterable R) (sess : option Session) :
  fit m X' optimizer niter lr sess = (m', Ok tt) ->
  exists sess' inv,
    _sess m' = Some sess' /\ _inv_warp m' = Some inv
    /\ transform m' T_is_None
       = Ok (warp (map3 nan_to_num (data (np_astype_float32 X'))) (inv (vars sess')))
    /\ (forall a,
          transform m' (T_is_ndarray a) = Ok (warp (data a) (inv (vars sess'))))
    /\ (forall t,
          transform m' (T_is_Tensor t)
          = Ok (warp (t (vars sess')) (inv (vars sess'))))
    /\ transform m' T_is_other
       = Raise (ValueError "X must be a numpy array or tensorflow tensor")
    /\ (forall a,
          data (np_astype_float32 X') = map3 Fin (data a) ->
          transform m' (T_is_ndarray a) = transform m' T_is_None)
    /\ forall i trial wi out,
         nth_error (data X') i = Some trial ->
         nth_error (inv (vars sess')) i = Some wi ->
         transform m' T_is_None = Ok out ->
         nth_error out i
         = Some (warp_trial
                   (map (map (fun v => nan_to_num (astype_float32 v))) trial) wi).
Proof.
  intros H.
  destruct (fit_has_session _ _ _ _ _ _ _ H) as (sess' & Hs).
  destruct (fit_keeps_inverse_warp _ _ _ _ _ _ _ H) as (inv & Hi & Hx).
  exists sess', inv. split; [exact Hs|]. split; [exact Hi|].
  assert (EN : transform m' T_is_None
               = Ok (warp (map3 nan_to_num (data (np_astype_float32 X')))
                       (inv (vars sess'))))
    by (unfold transform; rewrite Hx, Hs, Hi; reflexivity).
  assert (EA : forall a,
             transform m' (T_is_ndarray a) = Ok (warp (data a) (inv (vars sess'))))
    by (intros a; unfold transform; rewrite Hs, Hi; reflexivity).
  split; [exact EN|]. split; [exact EA|].
  split; [intros t; unfold transform; rewrite Hs, Hi; reflexivity|].
  split; [reflexivity|]. split.
  - intros a Ea. rewrite EN, EA, Ea, map3_nan_to_num_Fin. reflexivity.
  - intros i trial wi out Ht Hw Eo. rewrite EN in Eo; inversion Eo; subst out.
    unfold warp. apply nth_error_zipWith; [|exact Hw].
    simpl. unfold map3. rewrite !nth_error_map, Ht. simpl.
    rewrite map_map. f_equal. apply map_ext; intros row. apply map_map.
Qed.

(** *** The entries of a prediction for held-out channels *)

Lemma sum_over_ext_in (K : nat) (f g : nat -> R) :
  (forall k, (k < K)%nat -> f k = g k) -> sum_over K f = sum_over K g.
Proof.
  intros H; unfold sum_over; f_equal. apply map_ext_in; intros k Hk.
  apply in_seq in Hk. apply H; lia.
Qed.

Lemma nth_map_nth (l : matrix) (k n : nat) :
  nth k (map (fun row => nth n row 0) l) 0 = nth n (nth k l []) 0.
Proof.
  revert k; induction l as [|r l IH]; intros [|k]; simpl; auto; destruct n; auto.
Qed.

Lemma nth_error_transpose (ncols : nat) (a : matrix) (j : nat) :
  (j < ncols)%nat ->
  nth_error (transpose ncols a) j = Some (map (fun row => nth j row 0) a).
Proof.
  intros Hj. unfold transpose. rewrite nth_error_map, nth_error_seq.
  destruct (Nat.ltb_spec j ncols); [reflexivity | lia].
Qed.

Lemma nth_error_reshape_rows {A} (t : nat) :
  forall (n : nat) (a : list A) (i j : nat),
    (i < n)%nat -> (j < t)%nat ->
    exists chunk,
      nth_error (reshape_rows n t a) i = Some chunk
      /\ nth_error chunk j = nth_error a (i * t + j).
Proof.
  induction n as [|n IH]; intros a i j Hi Hj; [lia|].
  destruct i as [|i]; simpl.
  - eexists; split; [reflexivity|]. rewrite nth_error_firstn.
    destruct (Nat.ltb_spec j t); [reflexivity | lia].
  - destruct (IH (skipn t a) i j) as (chunk & Hc & Hn); [lia | exact Hj|].
    exists chunk; split; [exact Hc|]. rewrite Hn, nth_error_skipn.
    f_equal; lia.
Qed.

Lemma nth_concat_uniform {A} (T : nat) (d : A) (W : list (list A)) :
  Forall (fun t => length t = T) W ->
  forall i j, (j < T)%nat -> nth (i * T + j) (concat W) d = nth j (nth i W []) d.
Proof.
  induction 1 as [|t W Ht _ IH]; intros i j Hj; simpl.
  - destruct (i * T + j)%nat, i, j; reflexivity.
  - destruct i as [|i]; simpl.
    + apply app_nth1; lia.
    + rewrite app_nth2 by lia. rewrite <- (IH i j Hj). f_equal; lia.
Qed.

(** The double transposition of lines 250-251 is the product of the warped
    time factors and the refit neuron factors: without trial factors, the
    entry [(i, j, n)] of what [predict] returns for a numpy array is the sum
    over the components [k] of [warped_time_factors[i,j,k]] times the refit
    [neuron_factors[k,n]], when the warped time factors have the trials and
    timepoints of the array and [lstsq] gives one row per component. *)
Theorem predict_ndarray_entries (m : TWPCA) (sess : Session)
    (wtf : tensor (ndarray R)) (a : ndarray float) (v : tensor3) :
  _sess m = Some sess ->
  _warped_time_factors m = Some wtf ->
  fit_trial_factors m = false ->
  predict m (X_is_ndarray a) = Ok v ->
  length (data (wtf (vars sess))) = dim0 a ->
  Forall (fun trial => length trial = dim1 a) (data (wtf (vars sess))) ->
  length (held_out_neuron_factors (data (wtf (vars sess))) a) = n_components m ->
  forall i j n,
    (i < dim0 a)%nat -> (j < dim1 a)%nat -> (n < dim2 a)%nat ->
    get3 v i j n
    = Some (sum_over (n_components m)
              (fun k => entry3 (data (wtf (vars sess))) i j k
                        * entry2 (held_out_neuron_factors
                                    (data (wtf (vars sess))) a) k n)).
Proof.
  intros Hs Hw Hf Hp HW HT HK i j n Hi Hj Hn.
  unfold predict, predict_ndarray in Hp. rewrite Hs, Hw, Hf in Hp.
  unfold dim0, dim1, dim2 in *.
  destruct (shape a) as [[n_trials n_timepoints] n_neurons]; simpl in *.
  unfold sess_run in Hp.
  destruct (negb (Nat.eqb (fst (fst (shape (wtf (vars sess))))) n_trials));
    [discriminate|].
  destruct (negb (Nat.eqb (snd (fst (shape (wtf (vars sess))))) n_timepoints));
    [discriminate|].
  inversion Hp; subst v; clear Hp.
  fold (held_out_neuron_factors (data (wtf (vars sess))) a).
  set (NF := held_out_neuron_factors (data (wtf (vars sess))) a) in *.
  set (W := data (wtf (vars sess))) in *.
  set (K := n_components m) in *.
  set (TT := (n_trials * n_timepoints)%nat).
  assert (Hc : (i * n_timepoints + j < TT)%nat) by (unfold TT; nia).
  unfold get3.
  destruct (nth_error_reshape_rows n_timepoints n_trials
              (transpose TT (np_dot TT (transpose n_neurons NF)
                               (transpose K (concat W)))) i j Hi Hj)
    as (chunk & Hchunk & Hrow).
  rewrite Hchunk, Hrow, (nth_error_transpose _ _ _ Hc).
  unfold np_dot. rewrite nth_error_map, nth_error_map.
  rewrite (nth_error_transpose _ _ _ Hn). simpl. f_equal.
  erewrite nth_error_nth; [|rewrite nth_error_map, (nth_error_transpose _ _ _ Hc);
                            reflexivity].
  unfold transpose at 1. rewrite map_map.
  rewrite (dot_sum_over _ _ K) by (rewrite length_map, length_seq; reflexivity).
  apply sum_over_ext_in; intros k Hk.
  rewrite nth_map_nth.
  erewrite (nth_error_nth _ k 0);
    [|rewrite nth_error_map, nth_error_seq;
      destruct (Nat.ltb_spec k K); [reflexivity | lia]].
  simpl. rewrite nth_map_nth.
  rewrite (nth_concat_uniform n_timepoints [] W HT i j Hj).
  unfold entry3, entry2. ring.
Qed.

End MoreProperties.

(** ** The further properties on the small instance *)

Lemma train_splits_witness :
  exists m1 m2,
    train example_fitted 1 1 = (m1, Ok tt)
    /\ train m1 2 1 = (m2, Ok tt)
    /\ train example_fitted 3 1 = (m2, Ok tt).
Proof.
  do 2 eexists. split; [reflexivity|]. split; [reflexivity|].
  eapply (train_splits example_fitted _ _ 1 2 1); reflexivity.
Defined.

Lemma fit_then_train_resumes_witness :
  fit example_trial_model example_X example_optimizer (Scalar 2%nat) (Scalar 1) None
  = (example_trial_fitted, Ok tt)
  /\ schedule (Scalar 2%nat) (Scalar 1) = Ok ([2%nat], [1])
  /\ train example_trial_fitted 3 1 = (example_trial_trained, Ok tt)
  /\ fit example_trial_model example_X example_optimizer
       (Iterable [2%nat; 3%nat]) (Iterable [1; 1]) None
     = (example_trial_trained, Ok tt).
Proof.
  split; [reflexivity|]. split; [reflexivity|]. split; [reflexivity|].
  apply (fit_then_train_resumes example_trial_model example_trial_fitted
           example_trial_trained example_X example_optimizer (Scalar 2%nat)
           (Scalar 1) None [2%nat] [1] 3 1 (Ok tt)); reflexivity.
Defined.

Lemma fit_sets_shared_length_once_witness :
  fit example_model example_X example_optimizer (Scalar 2%nat) (Scalar 1) None
  = (example_fitted, Ok tt)
  /\ fit example_fitted example_held_out example_optimizer (Scalar 1%nat)
       (Scalar 1) None = (example_refitted, Ok tt)
  /\ dim1 example_X = 2%nat
  /\ dim1 example_held_out = 1%nat
  /\ shared_length example_fitted = Some 2%nat
  /\ shared_length example_refitted = Some 2%nat.
Proof.
  split; [reflexivity|]. split; [reflexivity|].
  split; [reflexivity|]. split; [reflexivity|].
  destruct (fit_sets_shared_length_once example_model example_fitted
              example_refitted example_X example_held_out
              example_optimizer example_optimizer (Scalar 2%nat) (Scalar 1%nat)
              (Scalar 1) (Scalar 1) None None (Ok tt) (Ok tt) eq_refl eq_refl)
    as (S1 & S2 & _).
  split; [exact S1 | rewrite S2; exact S1].
Defined.

Lemma fit_no_timestep_raises_witness :
  dim1 example_no_timestep = O
  /\ ~ schedule_mismatch (Scalar 2%nat) (Scalar 1)
  /\ exists m',
       fit example_model example_no_timestep example_optimizer
         (Scalar 2%nat) (Scalar 1) None
       = (m', Raise (ValueError "attempt to get argmax of an empty sequence"))
       /\ _sess m' = None.
Proof.
  assert (Hs : ~ schedule_mismatch (Scalar 2%nat) (Scalar 1)) by (intros []).
  split; [reflexivity|]. split; [exact Hs|].
  destruct (fit_no_timestep_raises example_model example_no_timestep
              example_optimizer (Scalar 2%nat) (Scalar 1) None eq_refl Hs)
    as (m' & E & _ & _ & _ & _ & _ & _ & _ & _ & Hsess).
  exists m'; split; [exact E | exact Hsess].
Defined.

Lemma last_idx_marks_last_valid_timestep_witness :
  fit example_model example_X example_optimizer (Scalar 2%nat) (Scalar 1) None
  = (example_fitted, Ok tt)
  /\ wf_ndarray example_X = true
  /\ exists last li,
       last_idx example_fitted = Some last
       /\ nth_error last 0 = Some li
       /\ (1 <= li <= 2)%nat.
Proof.
  split; [reflexivity|]. split; [reflexivity|].
  destruct (last_idx_marks_last_valid_timestep example_model example_fitted
              example_X example_optimizer (Scalar 2%nat) (Scalar 1) None
              eq_refl eq_refl) as (last & Hl & Hall).
  destruct (Hall O [[Fin 3]; [NaN]] eq_refl) as (li & Hli & Hb & _).
  exists last, li. split; [exact Hl|]. split; [exact Hli | exact Hb].
Defined.

Lemma recon_cost_nonnegative_witness :
  fit example_model example_X example_optimizer (Scalar 2%nat) (Scalar 1) None
  = (example_fitted, Ok tt)
  /\ exists cost,
       recon_cost example_fitted = Some cost
       /\ forall s, not_negative (cost s) /\ cost s <> NegInf.
Proof.
  split; [reflexivity|].
  destruct (recon_cost_nonnegative example_model example_fitted example_X
              example_optimizer (Scalar 2%nat) (Scalar 1) None eq_refl)
    as (cost & pred & mask & x & num & Hc & _ & _ & _ & _ & Hall).
  exists cost; split; [exact Hc|].
  intros s; destruct (Hall s) as (H1 & H2 & _). split; assumption.
Defined.

Lemma first_fit_dictionaries_witness :
  fit example_trial_model example_X example_optimizer (Scalar 2%nat) (Scalar 1) None
  = (example_trial_fitted, Ok tt)
  /\ _params example_trial_model = []
  /\ _raw_params example_trial_model = []
  /\ map fst (_params example_trial_fitted) = [k_warp; k_time; k_neuron; k_trial].
Proof.
  split; [reflexivity|]. split; [reflexivity|]. split; [reflexivity|].
  apply (first_fit_dictionaries example_trial_model example_trial_fitted example_X
           example_optimizer (Scalar 2%nat) (Scalar 1) None eq_refl eq_refl eq_refl).
Defined.

Lemma fit_without_iterations_witness :
  exists m',
    fit example_model example_X example_optimizer (Iterable [0%nat; 0%nat])
      (Iterable [1; 2]) None = (m', Ok tt)
    /\ total_iterations (Iterable [0%nat; 0%nat]) = O
    /\ obj_history m' = Some []
    /\ exists sess', _sess m' = Some sess'
                     /\ time_factors (vars sess') = [[1]; [1]].
Proof.
  eexists. split; [reflexivity|]. split; [reflexivity|].
  destruct (fit_without_iterations example_model _ example_X example_optimizer
              (Iterable [0%nat; 0%nat]) (Iterable [1; 2]) None eq_refl eq_refl)
    as (sess' & snapshot & tr & ti & ne & Ef & Hh & Hs & Ht & _).
  split; [exact Hh|]. exists sess'; split; [exact Hs|].
  rewrite Ht. injection Ef as _ <- _. reflexivity.
Defined.

Lemma predict_ndarray_shape_witness :
  exists v,
    predict example_fitted (X_is_ndarray example_X) = Ok v
    /\ length v = 1%nat.
Proof.
  eexists. split; [reflexivity|].
  apply (predict_ndarray_shape example_fitted example_X _ eq_refl).
Defined.

Lemma transform_after_fit_witness :
  fit example_model example_X example_optimizer (Scalar 2%nat) (Scalar 1) None
  = (example_fitted, Ok tt)
  /\ transform example_fitted (T_is_ndarray example_finite)
     = Ok (data example_finite)
  /\ transform example_fitted T_is_other
     = Raise (ValueError "X must be a numpy array or tensorflow tensor").
Proof.
  split; [reflexivity|].
  destruct (transform_after_fit example_model example_fitted example_X
              example_optimizer (Scalar 2%nat) (Scalar 1) None eq_refl)
    as (sess' & inv & Hs & Hi & _ & Ha & _ & Ho & _).
  split; [|exact Ho].
  rewrite (Ha example_finite).
  injection Hi as <-. injection Hs as <-. reflexivity.
Defined.

Lemma predict_ndarray_entries_witness :
  exists sess wtf v r,
    _sess example_fitted = Some sess
    /\ _warped_time_factors example_fitted = Some wtf
    /\ fit_trial_factors example_fitted = false
    /\ predict example_fitted (X_is_ndarray example_X) = Ok v
    /\ length (data (wtf (vars sess))) = dim0 example_X
    /\ Forall (fun trial => length trial = dim1 example_X) (data (wtf (vars sess)))
    /\ length (@held_out_neuron_factors example_backend
                 (data (wtf (vars sess))) example_X)
       = n_components example_fitted
    /\ get3 v 0 1 0 = Some r.
Proof.
  do 4 eexists.
  assert (HT : Forall (fun trial : list (list R) => length trial = dim1 example_X)
                 [[[1]; [1]]]) by (repeat constructor).
  split; [reflexivity|]. split; [reflexivity|]. split; [reflexivity|].
  split; [reflexivity|]. split; [reflexivity|]. split; [exact HT|].
  split; [reflexivity|].
  apply (predict_ndarray_entries example_fitted _ _ example_X _ eq_refl eq_refl
           eq_refl eq_refl eq_refl HT eq_refl 0%nat 1%nat 0%nat);
    [apply Nat.lt_0_succ | apply Nat.lt_succ_diag_r | apply Nat.lt_0_succ].
Defined.
